(** * Convex splatting: the training driver and its run configuration

    A shallow embedding of [arguments/__init__.py] (parameter groups, the
    domain adaptation [adapt], the configuration merge [get_combined_args])
    and of the iteration loop of [train.py] ([training]).

    Python integers are [Z]; Python floats are only stored and handed to
    collaborators by this code, never computed on, and are written as the
    exact decimals of the source in [Q]; a raised exception is the left
    summand of [result].  Calls into the renderer, the model, the optimiser
    and the scene are recorded as [event]s in the order the loop makes
    them. *)

From stdpp Require Import gmap strings list fin_maps.
From Stdlib Require Import ZArith QArith Ascii.

Open Scope Z_scope.


(** ** Python values, exceptions and results *)

Module Py.

Inductive exn :=
| TypeError
| AttributeError
| FileNotFoundError
| ValueError
| IndexError
| ZeroDivisionError
| SystemExit
| OtherError (msg : string).

#[export] Instance exn_eq_dec : EqDecision exn.
Proof. solve_decision. Defined.

(** [inl e]: the call raised [e]; [inr a]: it returned [a]. *)
Definition result (A : Type) : Type := exn + A.

Definition raise {A} (e : exn) : result A := inl e.

#[export] Instance result_ret : MRet result := λ A a, inr a.
#[export] Instance result_bind : MBind result :=
  λ A B f m, match m with inl e => inl e | inr a => f a end.

(** [try: body except exc: handler] for a single exception class. *)
Definition try_except {A} (body : result A) (exc : exn) (handler : result A)
  : result A :=
  match body with
  | inl e => if bool_decide (e = exc) then handler else inl e
  | inr a => inr a
  end.

(** [a % b] on integers: floored, the sign of the divisor; raises on [b = 0]. *)
Definition mod_ (a b : Z) : result Z :=
  if b =? 0 then raise ZeroDivisionError else inr (a `mod` b).

(** A value other than [None]. *)
Inductive atom :=
| PyBool (b : bool)
| PyInt (z : Z)
| PyFloat (q : Q)
| PyStr (s : string).

(** A Python value as stored in a namespace: [None] is Python's [None]. *)
Abbreviation value := (option atom).

(** [argparse.Namespace], seen through [vars]. *)
Abbreviation Namespace := (gmap string value).

(** [list.pop(i)]: negative indices count from the end. *)
Definition list_pop {A} (l : list A) (i : Z) : result (A * list A) :=
  let n := Z.of_nat (length l) in
  let j := if i <? 0 then i + n else i in
  if (0 <=? j) && (j <? n) then
    match l !! Z.to_nat j with
    | Some x => inr (x, delete (Z.to_nat j) l)
    | None => raise IndexError
    end
  else raise IndexError.

(** [range(a, b)]. *)
Definition range (a b : Z) : list Z := seqZ a (b - a).

(** [range(a, b, step)] for a positive [step]. *)
Definition range_step (a b step : Z) : list Z :=
  (λ i, a + i * step) <$> seqZ 0 ((b - a + step - 1) `div` step).

(** [l[i]]: negative indices count from the end. *)
Definition list_getitem {A} (l : list A) (i : Z) : result A :=
  let n := Z.of_nat (length l) in
  let j := if i <? 0 then i + n else i in
  if (0 <=? j) && (j <? n) then
    match l !! Z.to_nat j with
    | Some x => inr x
    | None => raise IndexError
    end
  else raise IndexError.

(** A list comprehension whose element expression may raise. *)
Fixpoint comprehension {A B} (f : A → result B) (l : list A)
  : result (list B) :=
  match l with
  | [] => inr []
  | x :: l => y ← f x; ys ← comprehension f l; inr (y :: ys)
  end.

(** Truth value of a Python value. *)
Definition truthy (v : value) : bool :=
  match v with
  | None => false
  | Some (PyBool b) => b
  | Some (PyInt z) => negb (z =? 0)
  | Some (PyFloat q) => negb (Qeq_bool q 0)
  | Some (PyStr s) => negb (bool_decide (s = ""%string))
  end.

End Py.

Import Py.

(** ** [arguments/__init__.py] *)

Module Arguments.

(** The attributes [OptimizationParams.__init__] sets, in the order of
    their first assignment.  [densify_grad_threshold] and
    [densify_until_iter] are assigned twice there; the later assignment
    (0.000025, 9000) is the one registered.  [reset_opacity_until] and
    [reset_opacity_unil] are two attributes. *)
Record OptimizationParams := {
  iterations : Z;
  position_lr_delay_mult : Q;
  position_lr_max_steps : Z;
  feature_lr : Q;
  opacity_lr : Q;
  lambda_dssim : Q;
  densification_interval : Z;
  densify_from_iter : Z;
  densify_until_iter : Z;
  densify_grad_threshold : Q;
  random_background : bool;
  reset_opacity_until : Z;
  opacity_reset : Q;
  opacity_reset_interval : Z;
  remove_size_threshold : Q;
  min_opacity : Q;
  mask_threshold : Q;
  lr_mask : Q;
  lr_delta : Q;
  lr_sigma : Q;
  lr_convex_points_init : Q;
  lr_convex_points_final : Q;
  nb_points : Z;
  convex_size : Q;
  set_opacity : Q;
  set_delta : Q;
  opacity_cloning : Q;
  delta_scaling_cloning : Z;
  shifting_cloning : Z;
  set_sigma : Q;
  sigma_scaling_cloning : Q;
  scaling_cloning : Q;
  reset_opacity_unil : Z
}.

Definition OptimizationParams_init : OptimizationParams := {|
  iterations := 30000;
  position_lr_delay_mult := 0.01%Q;
  position_lr_max_steps := 30000;
  feature_lr := 0.0025%Q;
  opacity_lr := 0.01%Q;
  lambda_dssim := 0.2%Q;
  densification_interval := 200;
  densify_from_iter := 500;
  densify_until_iter := 9000;
  densify_grad_threshold := 0.000025%Q;
  random_background := false;
  reset_opacity_until := 9000;
  opacity_reset := 0.2%Q;
  opacity_reset_interval := 3000;
  remove_size_threshold := 0.3%Q;
  min_opacity := 0.03%Q;
  mask_threshold := 0.01%Q;
  lr_mask := 0.01%Q;
  lr_delta := 0.005%Q;
  lr_sigma := 0.0045%Q;
  lr_convex_points_init := 0.0005%Q;
  lr_convex_points_final := 0.000005%Q;
  nb_points := 6;
  convex_size := 1.2%Q;
  set_opacity := 0.1%Q;
  set_delta := 0.1%Q;
  opacity_cloning := 0.5%Q;
  delta_scaling_cloning := 1;
  shifting_cloning := 1;
  set_sigma := 0.00095%Q;
  sigma_scaling_cloning := 0.88%Q;
  scaling_cloning := 0.63%Q;
  reset_opacity_unil := 5000
|}.

(** The assignments under [if not light and outdoor] *)
Definition adapt_outdoor (opt : OptimizationParams) : OptimizationParams := {|
  iterations := iterations opt;
  position_lr_delay_mult := position_lr_delay_mult opt;
  position_lr_max_steps := position_lr_max_steps opt;
  feature_lr := feature_lr opt;
  opacity_lr := opacity_lr opt;
  lambda_dssim := lambda_dssim opt;
  densification_interval := densification_interval opt;
  densify_from_iter := densify_from_iter opt;
  densify_until_iter := densify_until_iter opt;
  densify_grad_threshold := 0.000001%Q;
  random_background := random_background opt;
  reset_opacity_until := reset_opacity_until opt;
  opacity_reset := opacity_reset opt;
  opacity_reset_interval := opacity_reset_interval opt;
  remove_size_threshold := remove_size_threshold opt;
  min_opacity := min_opacity opt;
  mask_threshold := mask_threshold opt;
  lr_mask := lr_mask opt;
  lr_delta := lr_delta opt;
  lr_sigma := 0.004%Q;
  lr_convex_points_init := lr_convex_points_init opt;
  lr_convex_points_final := lr_convex_points_final opt;
  nb_points := nb_points opt;
  convex_size := convex_size opt;
  set_opacity := set_opacity opt;
  set_delta := set_delta opt;
  opacity_cloning := opacity_cloning opt;
  delta_scaling_cloning := delta_scaling_cloning opt;
  shifting_cloning := shifting_cloning opt;
  set_sigma := 0.001%Q;
  sigma_scaling_cloning := sigma_scaling_cloning opt;
  scaling_cloning := 0.6%Q;
  reset_opacity_unil := 18000
|}.

(** The assignments under [if not light and not outdoor] *)
Definition adapt_indoor (opt : OptimizationParams) : OptimizationParams := {|
  iterations := iterations opt;
  position_lr_delay_mult := position_lr_delay_mult opt;
  position_lr_max_steps := position_lr_max_steps opt;
  feature_lr := feature_lr opt;
  opacity_lr := opacity_lr opt;
  lambda_dssim := lambda_dssim opt;
  densification_interval := densification_interval opt;
  densify_from_iter := densify_from_iter opt;
  densify_until_iter := 9500;
  densify_grad_threshold := 0.000006%Q;
  random_background := random_background opt;
  reset_opacity_until := reset_opacity_until opt;
  opacity_reset := opacity_reset opt;
  opacity_reset_interval := opacity_reset_interval opt;
  remove_size_threshold := remove_size_threshold opt;
  min_opacity := min_opacity opt;
  mask_threshold := 0.02%Q;
  lr_mask := lr_mask opt;
  lr_delta := lr_delta opt;
  lr_sigma := lr_sigma opt;
  lr_convex_points_init := 0.0004%Q;
  lr_convex_points_final := 0.000004%Q;
  nb_points := nb_points opt;
  convex_size := convex_size opt;
  set_opacity := set_opacity opt;
  set_delta := set_delta opt;
  opacity_cloning := opacity_cloning opt;
  delta_scaling_cloning := delta_scaling_cloning opt;
  shifting_cloning := shifting_cloning opt;
  set_sigma := 0.0009%Q;
  sigma_scaling_cloning := 0.85%Q;
  scaling_cloning := 0.7%Q;
  reset_opacity_unil := reset_opacity_unil opt
|}.

Definition adapt (opt : OptimizationParams) (light outdoor : bool)
  : OptimizationParams :=
  let opt := if negb light && outdoor then adapt_outdoor opt else opt in
  let opt := if negb light && negb outdoor then adapt_indoor opt else opt in
  opt.

(** [vars(self)] of a parameter group when [ParamGroup.__init__] runs. *)
Definition OptimizationParams_vars (p : OptimizationParams)
  : list (string * atom) := [
  ("iterations", PyInt (iterations p));
  ("position_lr_delay_mult", PyFloat (position_lr_delay_mult p));
  ("position_lr_max_steps", PyInt (position_lr_max_steps p));
  ("feature_lr", PyFloat (feature_lr p));
  ("opacity_lr", PyFloat (opacity_lr p));
  ("lambda_dssim", PyFloat (lambda_dssim p));
  ("densification_interval", PyInt (densification_interval p));
  ("densify_from_iter", PyInt (densify_from_iter p));
  ("densify_until_iter", PyInt (densify_until_iter p));
  ("densify_grad_threshold", PyFloat (densify_grad_threshold p));
  ("random_background", PyBool (random_background p));
  ("reset_opacity_until", PyInt (reset_opacity_until p));
  ("opacity_reset", PyFloat (opacity_reset p));
  ("opacity_reset_interval", PyInt (opacity_reset_interval p));
  ("remove_size_threshold", PyFloat (remove_size_threshold p));
  ("min_opacity", PyFloat (min_opacity p));
  ("mask_threshold", PyFloat (mask_threshold p));
  ("lr_mask", PyFloat (lr_mask p));
  ("lr_delta", PyFloat (lr_delta p));
  ("lr_sigma", PyFloat (lr_sigma p));
  ("lr_convex_points_init", PyFloat (lr_convex_points_init p));
  ("lr_convex_points_final", PyFloat (lr_convex_points_final p));
  ("nb_points", PyInt (nb_points p));
  ("convex_size", PyFloat (convex_size p));
  ("set_opacity", PyFloat (set_opacity p));
  ("set_delta", PyFloat (set_delta p));
  ("opacity_cloning", PyFloat (opacity_cloning p));
  ("delta_scaling_cloning", PyInt (delta_scaling_cloning p));
  ("shifting_cloning", PyInt (shifting_cloning p));
  ("set_sigma", PyFloat (set_sigma p));
  ("sigma_scaling_cloning", PyFloat (sigma_scaling_cloning p));
  ("scaling_cloning", PyFloat (scaling_cloning p));
  ("reset_opacity_unil", PyInt (reset_opacity_unil p))
]%string.

Definition ModelParams_vars : list (string * atom) := [
  ("sh_degree", PyInt 3);
  ("_source_path", PyStr "");
  ("_model_path", PyStr "");
  ("_images", PyStr "images");
  ("_resolution", PyInt (-1));
  ("_white_background", PyBool false);
  ("data_device", PyStr "cuda");
  ("eval", PyBool false)
]%string.

Definition PipelineParams_vars : list (string * atom) := [
  ("convert_SHs_python", PyBool false);
  ("compute_cov3D_python", PyBool false);
  ("depth_ratio", PyFloat 1.0%Q);
  ("debug", PyBool false)
]%string.

(** An [ArgumentParser], as far as this code depends on it: the default
    registered for every destination. *)
Abbreviation Parser := (gmap string value).

(** The destination of [--key]: a leading underscore marks a shorthand
    and is dropped ([key = key[1:]]). *)
Definition dest_of (key : string) : string :=
  match key with
  | String "_"%char rest => rest
  | _ => key
  end.

(** [ParamGroup.__init__]: every attribute becomes an argument whose
    default is its value, or [None] under [fill_none]. *)
Definition ParamGroup_init (parser : Parser) (vars_self : list (string * atom))
    (fill_none : bool) : Parser :=
  foldl (λ parser kv,
           let value : value := if fill_none then None else Some kv.2 in
           <[dest_of kv.1 := value]> parser)
        parser vars_self.

Definition ModelParams (parser : Parser) (sentinel : bool) : Parser :=
  ParamGroup_init parser ModelParams_vars sentinel.

Definition PipelineParams (parser : Parser) : Parser :=
  ParamGroup_init parser PipelineParams_vars false.

Definition OptimizationParams_register (parser : Parser) : Parser :=
  ParamGroup_init parser (OptimizationParams_vars OptimizationParams_init) false.

(** [parser.parse_args(argv)].  [supplied] holds the options present in
    the argument vector, converted by their [type]; a conversion never
    yields [None].  An option the parser does not know ends the process. *)
Definition parse_args (parser : Parser) (supplied : gmap string atom)
  : result Namespace :=
  if bool_decide (dom supplied ⊆ dom parser)
  then inr ((Some <$> supplied) ∪ parser)
  else raise SystemExit.

(** [os.path.join(a, b)] for a relative [b]; [a] must be a string. *)
Definition os_path_join (a : value) (b : string) : result string :=
  match a with
  | Some (PyStr a) =>
      if bool_decide (a = "") then inr b
      else if bool_decide (String.get (String.length a - 1) a = Some "/"%char)
           then inr (a +:+ b)
           else inr (a +:+ "/" +:+ b)
  | _ => raise TypeError
  end.

(** [open(path).read()] on a file system given as a partial map. *)
Definition open_read (fs : string → option string) (path : string)
  : result string :=
  match fs path with
  | Some contents => inr contents
  | None => raise FileNotFoundError
  end.

(** [args.name]. *)
Definition getattr (args : Namespace) (name : string) : result value :=
  match args !! name with
  | Some v => inr v
  | None => raise AttributeError
  end.

(** The loop [for k,v in vars(args_cmdline).items(): if v != None:
    merged_dict[k] = v] over a copy of the stored record. *)
Definition merge_args (args_cfgfile args_cmdline : Namespace) : Namespace :=
  map_fold (λ k v merged_dict,
              match v with
              | Some _ => <[k := v]> merged_dict
              | None => merged_dict
              end)
           args_cfgfile args_cmdline.

Section get_combined_args.
(** [eval] of the text of a configuration record. *)
Context (py_eval : string → result Namespace).

Definition get_combined_args (parser : Parser) (supplied : gmap string atom)
    (fs : string → option string) : result Namespace :=
  args_cmdline ← parse_args parser supplied;
  cfgfile_string ←
    try_except
      (model_path ← getattr args_cmdline "model_path";
       cfgfilepath ← os_path_join model_path "cfg_args";
       open_read fs cfgfilepath)
      TypeError
      (inr "Namespace()"%string);
  args_cfgfile ← py_eval cfgfile_string;
  inr (merge_args args_cfgfile args_cmdline).
End get_combined_args.

(** [ParamGroup.extract]: a fresh object that receives every attribute
    of [args] whose name, or whose name after an underscore, is an
    attribute of the group. *)
Definition extract (vars_self : list (string * atom)) (args : Namespace)
  : Namespace :=
  map_fold (λ k v group,
              if bool_decide (k ∈ vars_self.*1
                              ∨ ("_" +:+ k)%string ∈ vars_self.*1)
              then <[k := v]> group else group)
           ∅ args.

Section ModelParams_extract.
(** [os.path.abspath], which depends on the working directory. *)
Context (abspath : string → string).

(** [ModelParams.extract]: the extracted group with its source path made
    absolute. *)
Definition ModelParams_extract (args : Namespace) : result Namespace :=
  let g := extract ModelParams_vars args in
  source_path ← getattr g "source_path";
  match source_path with
  | Some (PyStr path) =>
      inr (<["source_path"%string := Some (PyStr (abspath path))]> g)
  | _ => raise TypeError
  end.
End ModelParams_extract.

End Arguments.

Import Arguments.

(** ** [train.py] *)

Module Train.

(** What the loop needs from its collaborators: the scene with its
    cameras, the model with its optimiser, the checkpoint loader and the
    random source of [random.randint]. *)
Class Collaborators := {
  camera : Type;
  convex_model : Type;
  checkpoint_params : Type;
  rng : Type;
  (** the draw of [randint(a, b)] on a non-empty range, and the next
      generator state *)
  random_draw : rng → Z → Z → Z * rng;
  (** [torch.load(checkpoint)]: the stored pair *)
  torch_load : string → result (checkpoint_params * Z);
  (** [ConvexModel], [Scene] and [training_setup] for an adapted
      configuration *)
  scene_setup : OptimizationParams → bool → convex_model;
  (** [convexes.restore(model_params, opt)] *)
  restore : checkpoint_params → OptimizationParams → convex_model → convex_model;
}.

(** [randint(a, b)] returns an integer of the closed range. *)
Class RandomSource `{Collaborators} : Prop :=
  random_draw_range : ∀ g a b, a ≤ b → a ≤ (random_draw g a b).1 ≤ b.

Section training.
Context `{Collaborators}.

(** A call the loop makes, with the arguments it passes. *)
Inductive event :=
| update_learning_rate (iteration : Z)
| oneupSHdegree
| getTrainCameras_copy
| pop_view (viewpoint_cam : camera)
| render (viewpoint_cam : camera) (debug : bool)
| loss_backward
| training_report (iteration : Z)
| scene_save (iteration : Z)
| max_radii2D_update
| add_densification_stats
| densify_and_prune (min_opacity mask_threshold cameras_extent : Q)
                    (size_threshold : option Q)
| reset_opacity (opacity_reset : Q)
| only_prune (min_opacity mask_threshold : Q)
| optimizer_step
| optimizer_zero_grad.

(** [random.randint(a, b)]: an empty range raises. *)
Definition randint (g : rng) (a b : Z) : result (Z * rng) :=
  if b <? a then raise ValueError else inr (random_draw g a b).

(** Truth value of [viewpoint_stack]: [None] and the empty list are
    false. *)
Definition stack_truthy (viewpoint_stack : option (list camera)) : bool :=
  match viewpoint_stack with
  | None | Some [] => false
  | Some (_ :: _) => true
  end.

(** The stack that is popped from: refilled with a copy of the training
    cameras when [not viewpoint_stack]. *)
Definition refilled_stack (train_cameras : list camera)
    (viewpoint_stack : option (list camera)) : list camera :=
  if stack_truthy viewpoint_stack
  then default [] viewpoint_stack
  else train_cameras.

(** Lines 101-103: refill if needed, then pop a random position.  The
    result tells whether the stack was refilled, the camera chosen, the
    stack left and the generator. *)
Definition select_view (train_cameras : list camera)
    (viewpoint_stack : option (list camera)) (g : rng)
  : result (bool * camera * list camera * rng) :=
  let stack := refilled_stack train_cameras viewpoint_stack in
  '(i, g) ← randint g 0 (Z.of_nat (length stack) - 1);
  '(viewpoint_cam, stack) ← list_pop stack i;
  inr (negb (stack_truthy viewpoint_stack), viewpoint_cam, stack, g).


(** The guard of line 149 on the densify-and-prune call. *)
Definition densification_due (opt : OptimizationParams) (iteration : Z)
  : result bool :=
  if densify_from_iter opt <? iteration then
    r ← mod_ iteration (densification_interval opt);
    inr (r =? 0)
  else inr false.

(** Lines 143-161: the population-control dispatch of one iteration. *)
Definition population_control (opt : OptimizationParams)
    (white_background : bool) (cameras_extent : Q) (iteration : Z)
  : result (list event) :=
  if iteration <? densify_until_iter opt then
    due ← densification_due opt iteration;
    let densify :=
      if due : bool then
        let size_threshold :=
          if opacity_reset_interval opt <? iteration
          then Some (remove_size_threshold opt) else None in
        [densify_and_prune (min_opacity opt) (mask_threshold opt)
                           cameras_extent size_threshold]
      else [] in
    r ← mod_ iteration (opacity_reset_interval opt);
    let reset :=
      if (r =? 0) || (white_background && (iteration =? densify_from_iter opt))
      then [reset_opacity (opacity_reset opt)] else [] in
    inr ([max_radii2D_update; add_densification_stats] ++ densify ++ reset)
  else
    let prune :=
      if iteration `mod` 1000 =? 0
      then [only_prune (min_opacity opt) (mask_threshold opt)] else [] in
    r ← mod_ iteration (opacity_reset_interval opt);
    let reset :=
      if (r =? 0) && (iteration <? reset_opacity_until opt)
      then [reset_opacity (opacity_reset opt)] else [] in
    inr (prune ++ reset).

(** Lines 163-166. *)
Definition optimizer_phase (opt : OptimizationParams) (iteration : Z)
  : list event :=
  if iteration <? iterations opt
  then [optimizer_step; optimizer_zero_grad] else [].

(** The scene as the loop reads it. *)
Record Scene := {
  train_cameras : list camera;
  cameras_extent : Q;
}.

(** What one iteration hands to the next. *)
Record loop_state := {
  viewpoint_stack : option (list camera);
  gen : rng;
  pipe_debug : bool;
  log : list (Z * event);
}.

(** The calls of an iteration up to the population control. *)
Definition iteration_head (save_iterations : list Z) (iteration : Z)
    (refilled : bool) (viewpoint_cam : camera) (debug : bool) : list event :=
  [update_learning_rate iteration]
  ++ (if iteration `mod` 1000 =? 0 then [oneupSHdegree] else [])
  ++ (if refilled then [getTrainCameras_copy] else [])
  ++ [pop_view viewpoint_cam; render viewpoint_cam debug; loss_backward;
      training_report iteration]
  ++ (if bool_decide (iteration ∈ save_iterations)
      then [scene_save iteration] else []).

(** The body of [for iteration in range(first_iter, opt.iterations + 1)]. *)
Definition training_iteration (opt : OptimizationParams)
    (white_background : bool) (scene : Scene) (save_iterations : list Z)
    (debug_from : Z) (st : loop_state) (iteration : Z) : result loop_state :=
  '(refilled, viewpoint_cam, stack, g) ←
    select_view (train_cameras scene) (viewpoint_stack st) (gen st);
  let debug := if iteration - 1 =? debug_from then true else pipe_debug st in
  control ← population_control opt white_background (cameras_extent scene)
                               iteration;
  inr {| viewpoint_stack := Some stack;
         gen := g;
         pipe_debug := debug;
         log := log st
                ++ ((iteration,.) <$>
                      (iteration_head save_iterations iteration refilled
                                      viewpoint_cam debug
                       ++ control ++ optimizer_phase opt iteration)) |}.

(** A [for] loop whose body may raise. *)
Fixpoint for_each {S} (body : S → Z → result S) (st : S) (its : list Z)
  : result S :=
  match its with
  | [] => inr st
  | it :: its => st ← body st it; for_each body st its
  end.

(** Truth value of the [checkpoint] argument, a path or [None]. *)
Definition checkpoint_given (checkpoint : option string) : option string :=
  match checkpoint with
  | Some path => if bool_decide (path = ""%string) then None else Some path
  | None => None
  end.

(** What [training] has when the loop starts and when it ends. *)
Record run := {
  opt_used : OptimizationParams;
  convexes_at_start : convex_model;
  first_iter : Z;
  final : loop_state;
}.

(** The loop of lines 91-166, entered with [first_iter] already
    incremented. *)
Definition training_loop (opt : OptimizationParams) (white_background : bool)
    (scene : Scene) (save_iterations : list Z) (debug_from : Z)
    (first_iter : Z) (st : loop_state) : result loop_state :=
  for_each
    (training_iteration opt white_background scene save_iterations debug_from)
    st (range first_iter (iterations opt + 1)).

(** [training]: lines 67-166. *)
Definition training (white_background : bool) (scene : Scene)
    (opt : OptimizationParams) (pipe_debug0 : bool) (light outdoor : bool)
    (save_iterations : list Z) (checkpoint : option string) (debug_from : Z)
    (g : rng) : result run :=
  let first_iter := 0 in
  let opt := adapt opt light outdoor in
  let convexes := scene_setup opt light in
  '(convexes, first_iter) ←
    match checkpoint_given checkpoint with
    | Some path =>
        '(model_params, first_iter) ← torch_load path;
        inr (restore model_params opt convexes, first_iter)
    | None => inr (convexes, first_iter)
    end;
  let first_iter := first_iter + 1 in
  st ← training_loop opt white_background scene save_iterations debug_from
                     first_iter
                     {| viewpoint_stack := None; gen := g;
                        pipe_debug := pipe_debug0; log := [] |};
  inr {| opt_used := opt; convexes_at_start := convexes;
         first_iter := first_iter; final := st |}.

(** The iterations a log has entered, in order: the arguments of its
    [update_learning_rate] calls, the first call of every iteration. *)
Definition iterations_entered (l : list (Z * event)) : list Z :=
  omap (λ e, match e.2 with
             | update_learning_rate it => Some it
             | _ => None
             end) l.

(** The calls a log records for one iteration. *)
Definition events_of (l : list (Z * event)) (iteration : Z) : list event :=
  snd <$> filter (λ e, e.1 = iteration) l.
(** The training views of [validation_configs] in [training_report]:
    [[cams[idx % len(cams)] for idx in range(5, 30, 5)]]. *)
Definition validation_train_cameras (cams : list camera)
  : result (list camera) :=
  comprehension
    (λ idx, i ← mod_ idx (Z.of_nat (length cams)); list_getitem cams i)
    (range_step 5 30 5).

(** [training_report], as far as the views it evaluates: at a testing
    iteration, the test views and five training views, each set skipped
    when empty; nothing at other iterations. *)
Definition training_report_configs (testing_iterations : list Z)
    (iteration : Z) (test_cameras cams : list camera)
  : result (list (string * list camera)) :=
  if bool_decide (iteration ∈ testing_iterations) then
    train ← validation_train_cameras cams;
    inr (filter (λ config, config.2 ≠ [])
                [("test"%string, test_cameras); ("train"%string, train)])
  else inr [].

(** The [__main__] block from the parsed arguments on: the total number
    of iterations is appended to the save iterations. *)
Definition main (white_background : bool) (scene : Scene)
    (opt : OptimizationParams) (pipe_debug0 : bool) (light outdoor : bool)
    (save_iterations : list Z) (start_checkpoint : option string)
    (debug_from : Z) (g : rng) : result run :=
  training white_background scene opt pipe_debug0 light outdoor
           (save_iterations ++ [iterations opt]) start_checkpoint debug_from g.
End training.

(** [os.path.join("./output/", b)]: an absolute [b] replaces the
    directory. *)
Definition output_path (b : string) : string :=
  match b with
  | String "/"%char _ => b
  | _ => ("./output/" +:+ b)%string
  end.

Section prepare_output_and_logger.
(** [str] of a namespace, the environment variable [OAR_JOB_ID] and the
    text of a fresh [uuid.uuid4()]. *)
Context (py_str : Namespace → string) (OAR_JOB_ID : option string)
        (uuid4 : string).

(** [prepare_output_and_logger]: a run without model path gets one under
    [./output/]; the arguments are written to [cfg_args] in the model
    path.  The result is the updated arguments and file system. *)
Definition prepare_output_and_logger (args : Namespace)
    (fs : string → option string)
  : result (Namespace * (string → option string)) :=
  model_path ← getattr args "model_path";
  let args :=
    if truthy model_path then args
    else
      let unique_str :=
        match OAR_JOB_ID with
        | Some job => if bool_decide (job = ""%string) then uuid4 else job
        | None => uuid4
        end in
      <["model_path"%string :=
          Some (PyStr (output_path (String.substring 0 10 unique_str)))]> args in
  model_path ← getattr args "model_path";
  cfg_log ← os_path_join model_path "cfg_args";
  inr (args, λ path, if bool_decide (path = cfg_log)
                     then Some (py_str args) else fs path).
End prepare_output_and_logger.

End Train.

Import Train.

(** ** A concrete set of collaborators, for running the definitions *)

Module Fixture.

(** Cameras are numbered; the generator is a counter whose value picks
    the position; the checkpoint at [chkpnt29998.pth] was written at
    iteration 29998. *)
#[export] Instance collaborators : Collaborators := {|
  camera := nat;
  convex_model := list string;
  checkpoint_params := string;
  rng := Z;
  random_draw g a b := (a + g `mod` (b - a + 1), g + 1);
  torch_load path :=
    if bool_decide (path = "chkpnt29998.pth"%string)
    then inr ("params@29998"%string, 29998)
    else raise FileNotFoundError;
  scene_setup opt light := ["initial"%string];
  restore model_params opt convexes := [model_params];
|}.

(** The training view number [n]. *)
Definition view (n : nat) : camera := n.

Definition scene : Scene := {|
  train_cameras := [view 0; view 1; view 2];
  cameras_extent := 4.5%Q;
|}.

(** The state [training] enters its loop with, for the generator 5. *)
Definition start : @loop_state collaborators := {|
  viewpoint_stack := None;
  gen := 5;
  pipe_debug := false;
  log := [];
|}.

(** A scene without training views. *)
Definition empty_scene : Scene := {|
  train_cameras := ([] : list camera);
  cameras_extent := 4.5%Q;
|}.

(** [eval] on the two records the examples store. *)
Definition py_eval (s : string) : result Namespace :=
  if bool_decide (s = "Namespace()"%string) then inr ∅
  else if bool_decide (s = "Namespace(debug=True)"%string)
       then inr {[ "debug"%string := Some (PyBool true) ]}
       else raise (OtherError "SyntaxError").

(** A parser as a rendering script builds it: the model group with
    [None] defaults, the pipeline group with its own. *)
Definition parser : Parser := PipelineParams (ModelParams ∅ true).

(** A file system holding one stored record. *)
Definition fs (path : string) : option string :=
  if bool_decide (path = "output/run1/cfg_args"%string)
  then Some "Namespace(debug=True)"%string else None.

(** The record stored there, once evaluated. *)
Definition stored : Namespace := {[ "debug"%string := Some (PyBool true) ]}.

(** Command lines giving the model path of a run and nothing else: a run
    whose record is stored, and one whose record is not. *)
Definition supplied_run1 : gmap string atom :=
  {[ "model_path"%string := PyStr "output/run1" ]}.

Definition supplied_run2 : gmap string atom :=
  {[ "model_path"%string := PyStr "output/run2" ]}.

(** Collaborators whose checkpoint [chkpnt30000.pth] was written at the
    last iteration of the default run. *)
Definition finished : Collaborators := {|
  camera := nat;
  convex_model := list string;
  checkpoint_params := string;
  rng := Z;
  random_draw g a b := (a, g);
  torch_load path :=
    if bool_decide (path = "chkpnt30000.pth"%string)
    then inr ("params@30000"%string, 30000)
    else raise FileNotFoundError;
  scene_setup opt light := ["initial"%string];
  restore model_params opt convexes := [model_params];
|}.

(** The arguments of a third run, their text, and [eval] on that text. *)
Definition args_run3 : Namespace :=
  {[ "model_path"%string := Some (PyStr "output/run3") ]}.

Definition str_run3 (args : Namespace) : string :=
  "Namespace(model_path='output/run3')".

Definition eval_run3 (s : string) : result Namespace :=
  if bool_decide (s = "Namespace(model_path='output/run3')"%string)
  then inr args_run3 else raise (OtherError "SyntaxError").

Definition supplied_run3 : gmap string atom :=
  {[ "model_path"%string := PyStr "output/run3" ]}.

End Fixture.

(** ** Vocabulary of the statements *)

(** The states a loop goes through, one step of [R] per iteration. *)
Fixpoint chained {S} (R : Z → S → S → Prop) (its : list Z) (st st' : S)
  : Prop :=
  match its with
  | [] => st' = st
  | it :: its => ∃ mid, R it st mid ∧ chained R its mid st'
  end.

Section vocabulary.
Context `{Collaborators}.
Implicit Types (opt : OptimizationParams) (scene : Scene) (st : loop_state).

(** The calls the population control can make. *)
Definition population_event (e : event) : Prop :=
  match e with
  | max_radii2D_update | add_densification_stats | densify_and_prune _ _ _ _
  | reset_opacity _ | only_prune _ _ => True
  | _ => False
  end.

(** What one iteration appends to the log. *)
Definition iteration_shape opt white_background scene
    (save_iterations : list Z) (iteration : Z) (evs : list event) : Prop :=
  ∃ refilled cam debug control,
    population_control opt white_background (cameras_extent scene) iteration
    = inr control
    ∧ evs = iteration_head save_iterations iteration refilled cam debug
            ++ control ++ optimizer_phase opt iteration.

Definition iteration_step opt white_background scene
    (save_iterations : list Z) (iteration : Z) st st' : Prop :=
  ∃ evs,
    iteration_shape opt white_background scene save_iterations iteration evs
    ∧ log st' = log st ++ ((iteration,.) <$> evs).

(** The number of views left on the stack. *)
Definition stack_left (viewpoint_stack : option (list camera)) : nat :=
  length (default [] viewpoint_stack).

(** What one iteration does to the state it is handed: the view stack,
    the debug switch of the pipeline and the log. *)
Definition iteration_effect opt white_background scene
    (save_iterations : list Z) (debug_from : Z) (iteration : Z) st st'
  : Prop :=
  ∃ cam stack g' control,
    select_view (train_cameras scene) (viewpoint_stack st) (gen st)
    = inr (negb (stack_truthy (viewpoint_stack st)), cam, stack, g')
    ∧ population_control opt white_background (cameras_extent scene) iteration
      = inr control
    ∧ viewpoint_stack st' = Some stack
    ∧ pipe_debug st'
      = (if iteration - 1 =? debug_from then true else pipe_debug st)
    ∧ log st'
      = log st
        ++ ((iteration,.) <$>
              (iteration_head save_iterations iteration
                              (negb (stack_truthy (viewpoint_stack st)))
                              cam (pipe_debug st')
               ++ control ++ optimizer_phase opt iteration)).

(** The calls the loop is known to make at an iteration, given the number
    [left] of views on the stack and the debug switch when the loop
    started at [first_iter]. *)
Definition iteration_calls opt (save_iterations : list Z) (debug_from : Z)
    (cameras : nat) (first_iter : Z) (left : nat) (debug0 : bool)
    (iteration : Z) (cam : camera) (control : list event) : list event :=
  iteration_head save_iterations iteration
    ((Z.of_nat left - (iteration - first_iter)) `mod` Z.of_nat cameras =? 0)
    cam
    (debug0 || bool_decide (first_iter ≤ debug_from + 1 ≤ iteration))
  ++ control ++ optimizer_phase opt iteration.

(** The iteration a run resumes after: the one stored in its checkpoint,
    0 without a checkpoint. *)
Definition stored_iteration (checkpoint : option string) : result Z :=
  match checkpoint_given checkpoint with
  | Some path => '(_, first_iter) ← torch_load path; inr first_iter
  | None => inr 0
  end.
End vocabulary.

(** * Properties *)

(** ** The domain adaptation *)

Lemma adapt_iterations opt light outdoor :
  iterations (adapt opt light outdoor) = iterations opt.
Proof. by destruct light, outdoor. Qed.

Lemma adapt_opacity_reset_interval opt light outdoor :
  opacity_reset_interval (adapt opt light outdoor) = opacity_reset_interval opt.
Proof. by destruct light, outdoor. Qed.

Lemma adapt_densification_interval opt light outdoor :
  densification_interval (adapt opt light outdoor) = densification_interval opt.
Proof. by destruct light, outdoor. Qed.

(** ** Results *)

Lemma result_bind_inr {A B} (a : A) (f : A → result B) : inr a ≫= f = f a.
Proof. done. Qed.

(** ** Integer remainder *)

Lemma mod__nonzero a b : b ≠ 0 → mod_ a b = inr (a `mod` b).
Proof. intros Hb. unfold mod_. by destruct (Z.eqb_spec b 0). Qed.

Lemma mod_eqb_divide a b : b ≠ 0 → ((a `mod` b =? 0) = true) ↔ (b | a).
Proof. intros Hb. rewrite Z.eqb_eq. by apply Z.mod_divide. Qed.

(** The two conditions under which the growth phase resets opacities. *)
Lemma growth_reset_due (white_background : bool) iteration from interval :
  interval ≠ 0 →
  ((iteration `mod` interval =? 0)
   || (white_background && (iteration =? from))) = true
  ↔ (interval | iteration) ∨ (white_background = true ∧ iteration = from).
Proof.
  intros Hne.
  rewrite orb_true_iff, andb_true_iff, (mod_eqb_divide _ _ Hne), Z.eqb_eq.
  done.
Qed.

(** ** Lists of optional calls *)

Lemma elem_of_when {A} (b : bool) (x y : A) :
  y ∈ (if b then [x] else []) ↔ b = true ∧ y = x.
Proof.
  destruct b; rewrite ?list_elem_of_singleton, ?elem_of_nil; naive_solver.
Qed.

Lemma Forall_when {A} (P : A → Prop) (b : bool) (x : A) :
  P x → Forall P (if b then [x] else []).
Proof. destruct b; by repeat constructor. Qed.

Lemma NoDup_when {A} (b : bool) (x : A) : NoDup (if b then [x] else []).
Proof. destruct b; [apply NoDup_singleton | apply NoDup_nil_2]. Qed.

(** ** The population-control dispatch *)

Section dispatch.
Context `{Collaborators}.
Implicit Types (opt : OptimizationParams) (iteration : Z) (e : event).

(** The dispatch past the growth phase, written out. *)
Lemma population_control_post_growth opt white_background extent iteration :
  densify_until_iter opt ≤ iteration →
  opacity_reset_interval opt ≠ 0 →
  population_control opt white_background extent iteration
  = inr ((if iteration `mod` 1000 =? 0
          then [only_prune (min_opacity opt) (mask_threshold opt)] else [])
         ++ (if (iteration `mod` opacity_reset_interval opt =? 0)
                && (iteration <? reset_opacity_until opt)
             then [reset_opacity (opacity_reset opt)] else [])).
Proof.
  intros Hpast Hreset. unfold population_control.
  destruct (Z.ltb_spec iteration (densify_until_iter opt)); [lia|].
  by rewrite mod__nonzero.
Qed.

(** The dispatch inside the growth phase, written out. *)
Lemma population_control_growth opt white_background extent iteration :
  iteration < densify_until_iter opt →
  opacity_reset_interval opt ≠ 0 →
  (densify_from_iter opt < iteration → densification_interval opt ≠ 0) →
  population_control opt white_background extent iteration
  = inr ([max_radii2D_update; add_densification_stats]
         ++ (if (densify_from_iter opt <? iteration)
                && (iteration `mod` densification_interval opt =? 0)
             then [densify_and_prune (min_opacity opt) (mask_threshold opt)
                     extent
                     (if opacity_reset_interval opt <? iteration
                      then Some (remove_size_threshold opt) else None)]
             else [])
         ++ (if (iteration `mod` opacity_reset_interval opt =? 0)
                || (white_background
                    && (iteration =? densify_from_iter opt))
             then [reset_opacity (opacity_reset opt)] else [])).
Proof.
  intros Hgrowth Hreset Hdens. unfold population_control, densification_due.
  destruct (Z.ltb_spec iteration (densify_until_iter opt)); [|lia].
  destruct (Z.ltb_spec (densify_from_iter opt) iteration) as [Hfrom|Hfrom];
    simpl.
  - rewrite (mod__nonzero _ _ (Hdens Hfrom)). simpl.
    by rewrite mod__nonzero.
  - by rewrite mod__nonzero.
Qed.

(** The dispatch returns whenever the two intervals are not zero, and
    never touches the optimiser. *)
Lemma population_control_returns opt white_background extent iteration :
  opacity_reset_interval opt ≠ 0 →
  densification_interval opt ≠ 0 →
  ∃ control,
    population_control opt white_background extent iteration = inr control
    ∧ (optimizer_step ∉ control) ∧ (optimizer_zero_grad ∉ control).
Proof.
  intros Hreset Hdens.
  destruct (Z.lt_ge_cases iteration (densify_until_iter opt)) as [Hg|Hp].
  - rewrite population_control_growth by done.
    eexists; split; [done|].
    rewrite !elem_of_app, !elem_of_when, !elem_of_cons, !elem_of_nil.
    intuition discriminate.
  - rewrite population_control_post_growth by done.
    eexists; split; [done|].
    rewrite !elem_of_app, !elem_of_when. intuition discriminate.
Qed.
End dispatch.

Section population_control.
Context `{Collaborators}.
Implicit Types (opt : OptimizationParams) (iteration : Z).

(** C3.  At an iteration at or past [densify_until_iter] the dispatch
    calls nothing but [only_prune], with the minimum-opacity and mask
    thresholds and no size threshold, and [reset_opacity]; it calls
    [only_prune] exactly when the iteration is divisible by 1000 and
    [reset_opacity] exactly when the iteration is a multiple of
    [opacity_reset_interval] and strictly below [reset_opacity_until];
    each at most once, and never [densify_and_prune]. *)
Theorem post_growth_prune_and_reset opt white_background extent iteration :
  densify_until_iter opt ≤ iteration →
  opacity_reset_interval opt ≠ 0 →
  ∃ control,
    population_control opt white_background extent iteration = inr control
    ∧ (∀ e, e ∈ control →
            e = only_prune (min_opacity opt) (mask_threshold opt)
            ∨ e = reset_opacity (opacity_reset opt))
    ∧ (∀ a b c d, densify_and_prune a b c d ∉ control)
    ∧ (only_prune (min_opacity opt) (mask_threshold opt) ∈ control
       ↔ (1000 | iteration))
    ∧ (reset_opacity (opacity_reset opt) ∈ control
       ↔ (opacity_reset_interval opt | iteration)
         ∧ iteration < reset_opacity_until opt)
    ∧ NoDup control.
Proof.
  intros Hpast Hreset.
  rewrite population_control_post_growth by done.
  eexists; split; [done|]. split_and!.
  - intros e. rewrite elem_of_app, !elem_of_when. naive_solver.
  - intros a b c d. rewrite elem_of_app, !elem_of_when. naive_solver.
  - rewrite elem_of_app, !elem_of_when.
    rewrite (mod_eqb_divide iteration 1000) by lia. naive_solver.
  - rewrite elem_of_app, !elem_of_when, andb_true_iff, Z.ltb_lt.
    rewrite (mod_eqb_divide iteration (opacity_reset_interval opt)) by done.
    naive_solver.
  - apply NoDup_app. split_and!; [apply NoDup_when| |apply NoDup_when].
    intros e. rewrite !elem_of_when. naive_solver.
Qed.

(** C4, as the code has it.  At an iteration of the growth phase
    [reset_opacity] is called, with the configured ceiling and at most
    once, exactly when the iteration is a multiple of
    [opacity_reset_interval] or the background is white and the
    iteration equals [densify_from_iter]; at that iteration
    [densify_and_prune] is not called, its guard asking for an iteration
    strictly greater. *)
Theorem growth_phase_opacity_reset opt white_background extent iteration :
  iteration < densify_until_iter opt →
  opacity_reset_interval opt ≠ 0 →
  (densify_from_iter opt < iteration → densification_interval opt ≠ 0) →
  ∃ control,
    population_control opt white_background extent iteration = inr control
    ∧ (∀ ceiling, reset_opacity ceiling ∈ control →
                  ceiling = opacity_reset opt)
    ∧ (reset_opacity (opacity_reset opt) ∈ control
       ↔ (opacity_reset_interval opt | iteration)
         ∨ (white_background = true ∧ iteration = densify_from_iter opt))
    ∧ (iteration = densify_from_iter opt →
       ∀ a b c d, densify_and_prune a b c d ∉ control)
    ∧ NoDup control.
Proof.
  intros Hgrowth Hreset Hdens.
  rewrite population_control_growth by done.
  eexists; split; [done|]. split_and!.
  - intros ceiling.
    rewrite !elem_of_app, !elem_of_when, !elem_of_cons, elem_of_nil.
    intros [[|[|[]]]|[[_ ?]|[_ ?]]]; congruence.
  - rewrite !elem_of_app, !elem_of_when, !elem_of_cons, elem_of_nil.
    rewrite growth_reset_due by done.
    split; [intros [[|[|[]]]|[[_ ?]|[? _]]]; done | by right; right].
  - intros -> a b c d.
    rewrite !elem_of_app, !elem_of_when, !elem_of_cons, elem_of_nil.
    rewrite Z.ltb_irrefl. simpl.
    intros [[|[|[]]]|[[? _]|[_ ?]]]; done.
  - apply NoDup_cons; split.
    { rewrite !elem_of_cons, !elem_of_app, !elem_of_when.
      intros [|[[_ ?]|[_ ?]]]; done. }
    apply NoDup_cons; split.
    { rewrite !elem_of_app, !elem_of_when. intros [[_ ?]|[_ ?]]; done. }
    apply NoDup_app. split_and!; [apply NoDup_when| |apply NoDup_when].
    intros e. rewrite !elem_of_when. intros [_ ->] [_ ?]; done.
Qed.

(** C5.  In the growth phase [densify_and_prune] is called exactly at
    the iterations above [densify_from_iter] that are multiples of
    [densification_interval]; every such call passes the minimum-opacity
    and mask thresholds, and passes [remove_size_threshold] as size
    threshold if and only if the iteration is strictly greater than
    [opacity_reset_interval], and [None] otherwise. *)
Theorem size_threshold_gate opt white_background extent iteration :
  iteration < densify_until_iter opt →
  opacity_reset_interval opt ≠ 0 →
  densification_interval opt ≠ 0 →
  ∃ control,
    population_control opt white_background extent iteration = inr control
    ∧ ((∃ a b c d, densify_and_prune a b c d ∈ control)
       ↔ densify_from_iter opt < iteration
         ∧ (densification_interval opt | iteration))
    ∧ (∀ a b c size_threshold,
         densify_and_prune a b c size_threshold ∈ control →
         a = min_opacity opt ∧ b = mask_threshold opt ∧ c = extent
         ∧ (size_threshold = Some (remove_size_threshold opt)
            ↔ opacity_reset_interval opt < iteration)
         ∧ (iteration ≤ opacity_reset_interval opt → size_threshold = None)).
Proof.
  intros Hgrowth Hreset Hdens.
  rewrite population_control_growth by done.
  eexists; split; [done|].
  assert (∀ a b c d,
    densify_and_prune a b c d
      ∈ [max_radii2D_update; add_densification_stats]
        ++ (if (densify_from_iter opt <? iteration)
               && (iteration `mod` densification_interval opt =? 0)
            then [densify_and_prune (min_opacity opt) (mask_threshold opt)
                    extent
                    (if opacity_reset_interval opt <? iteration
                     then Some (remove_size_threshold opt) else None)]
            else [])
        ++ (if (iteration `mod` opacity_reset_interval opt =? 0)
               || (white_background && (iteration =? densify_from_iter opt))
            then [reset_opacity (opacity_reset opt)] else [])
    ↔ (densify_from_iter opt < iteration
       ∧ (densification_interval opt | iteration))
      ∧ a = min_opacity opt ∧ b = mask_threshold opt ∧ c = extent
      ∧ d = (if opacity_reset_interval opt <? iteration
             then Some (remove_size_threshold opt) else None)) as Hcall.
  { intros a b c d.
    rewrite !elem_of_app, !elem_of_when, !elem_of_cons, elem_of_nil.
    rewrite andb_true_iff, Z.ltb_lt.
    rewrite (mod_eqb_divide iteration (densification_interval opt)) by done.
    split.
    - intros [[|[|[]]]|[[? [= -> -> -> ->]]|[_ ?]]]; done.
    - intros (? & -> & -> & -> & ->). right; left. done. }
  split.
  - split.
    + intros (a & b & c & d & Hin). by apply Hcall in Hin as [? _].
    + intros Hdue. do 4 eexists. apply Hcall. done.
  - intros a b c size_threshold [_ (-> & -> & -> & ->)]%Hcall.
    split_and!; try done.
    + destruct (Z.ltb_spec (opacity_reset_interval opt) iteration);
        split; (done || lia).
    + intros Hle.
      destruct (Z.ltb_spec (opacity_reset_interval opt) iteration);
        (done || lia).
Qed.
End population_control.

(** ** The domain adaptation and the reset deadline *)

(** C10.  With the light flag set, [adapt] returns its argument with
    every field unchanged, whatever the outdoor flag. *)
Theorem adapt_light_identity (opt : OptimizationParams) (outdoor : bool) :
  adapt opt true outdoor = opt.
Proof. reflexivity. Qed.

(** ** View selection *)

Lemma list_pop_in_range {A} (l : list A) (i : Z) :
  0 ≤ i < Z.of_nat (length l) →
  ∃ x, l !! Z.to_nat i = Some x ∧ list_pop l i = inr (x, delete (Z.to_nat i) l).
Proof.
  intros Hi. unfold list_pop.
  destruct (Z.ltb_spec i 0); [lia|].
  destruct (Z.leb_spec 0 i); [|lia].
  destruct (Z.ltb_spec i (Z.of_nat (length l))); [|lia]. simpl.
  destruct (lookup_lt_is_Some_2 l (Z.to_nat i)) as [x Hx]; [lia|].
  exists x. by rewrite Hx.
Qed.

Lemma list_pop_removes {A} (l l' : list A) (i : Z) (x : A) :
  list_pop l i = inr (x, l') → l ≡ₚ x :: l'.
Proof.
  unfold list_pop, raise. cbv zeta.
  set (j := if i <? 0 then i + Z.of_nat (length l) else i).
  destruct (_ && _); [|done].
  destruct (l !! Z.to_nat j) eqn:Hx; [|done].
  intros [= <- <-]. by apply delete_Permutation.
Qed.

Section select_view.
Context `{Collaborators}.
Implicit Types (cams stack : list camera) (vs : option (list camera)).


Lemma refilled_stack_falsy cams vs :
  stack_truthy vs = false → refilled_stack cams vs = cams.
Proof. unfold refilled_stack. by intros ->. Qed.

(** With nothing to pop, [randint(0, -1)] raises before the pop. *)
Lemma select_view_empty cams vs g :
  refilled_stack cams vs = [] → select_view cams vs g = inl ValueError.
Proof. unfold select_view. by intros ->. Qed.

(** A selection that returns has popped its camera out of a non-empty
    stack. *)
Lemma select_view_returned cams vs g refilled cam stack g' :
  select_view cams vs g = inr (refilled, cam, stack, g') →
  refilled = negb (stack_truthy vs)
  ∧ refilled_stack cams vs ≠ []
  ∧ refilled_stack cams vs ≡ₚ cam :: stack.
Proof.
  unfold select_view, randint.
  case_match; [done|]. simpl.
  destruct (random_draw g 0 _) as [i g1]. simpl.
  destruct (list_pop _ i) as [|[cam1 stack1]] eqn:Hpop; [done|]. simpl.
  intros [= <- <- <- <-]. apply list_pop_removes in Hpop.
  split_and!; [done| |done].
  intros Hnil. rewrite Hnil in Hpop.
  by apply Permutation_nil_cons in Hpop.
Qed.

Context `{!RandomSource}.

(** On a non-empty stack the selection returns. *)
Lemma select_view_returns cams vs g :
  refilled_stack cams vs ≠ [] →
  ∃ cam stack g',
    select_view cams vs g = inr (negb (stack_truthy vs), cam, stack, g')
    ∧ refilled_stack cams vs ≡ₚ cam :: stack.
Proof.
  intros Hne. unfold select_view, randint.
  set (q := refilled_stack cams vs) in *.
  assert (0 < Z.of_nat (length q)) by (destruct q; simpl in *; [done|lia]).
  destruct (Z.ltb_spec (Z.of_nat (length q) - 1) 0); [lia|]. simpl.
  pose proof (random_draw_range g 0 (Z.of_nat (length q) - 1)) as Hdraw.
  destruct (random_draw g 0 _) as [i g1]. simpl in *.
  destruct (list_pop_in_range q i) as (cam & Hcam & ->); [lia|]. simpl.
  eexists _, _, _. split; [done|]. by apply delete_Permutation.
Qed.


End select_view.

(** ** The iteration loop *)

(** A loop whose body returns at every step returns. *)
Lemma for_each_chained {S} (body : S → Z → result S) (R : Z → S → S → Prop)
    (its : list Z) (st : S) :
  (∀ st it, it ∈ its → ∃ st', body st it = inr st' ∧ R it st st') →
  ∃ st', for_each body st its = inr st' ∧ chained R its st st'.
Proof.
  revert st. induction its as [|it its IH]; intros st Hbody.
  - by exists st.
  - destruct (Hbody st it) as (mid & Hmid & HR); [by left|].
    destruct (IH mid) as (st' & Hrun & Hchain).
    { intros st1 it1 Hin. apply Hbody. by right. }
    exists st'. simpl. rewrite Hmid. simpl. eauto.
Qed.

Section loop.
Context `{Collaborators}.
Implicit Types (opt : OptimizationParams) (scene : Scene) (st : loop_state).

Lemma population_control_events opt white_background extent iteration control :
  population_control opt white_background extent iteration = inr control →
  Forall population_event control.
Proof.
  unfold population_control, densification_due, mod_, raise.
  destruct (iteration <? densify_until_iter opt).
  - destruct (densify_from_iter opt <? iteration); simpl.
    + destruct (densification_interval opt =? 0); [done|]. simpl.
      destruct (opacity_reset_interval opt =? 0); [done|].
      intros [= <-].
      rewrite !Forall_cons, Forall_app. split_and!; try done;
        by apply Forall_when.
    + destruct (opacity_reset_interval opt =? 0); [done|].
      intros [= <-].
      rewrite !Forall_cons. split_and!; try done. by apply Forall_when.
  - destruct (opacity_reset_interval opt =? 0); [done|].
    intros [= <-]. rewrite Forall_app. split; by apply Forall_when.
Qed.

(** *** What a log shows of one iteration *)

Lemma iterations_entered_app (l1 l2 : list (Z * event)) :
  iterations_entered (l1 ++ l2)
  = iterations_entered l1 ++ iterations_entered l2.
Proof. apply omap_app. Qed.

Lemma iterations_entered_cons (iteration : Z) (e : event) l :
  iterations_entered ((iteration, e) :: l)
  = match e with update_learning_rate it => [it] | _ => [] end
    ++ iterations_entered l.
Proof. by destruct e. Qed.

Lemma iterations_entered_none (iteration : Z) (evs : list event) :
  Forall (λ e, ∀ it, e ≠ update_learning_rate it) evs →
  iterations_entered ((iteration,.) <$> evs) = [].
Proof.
  induction 1 as [|e evs He _ IH]; [done|].
  rewrite fmap_cons, iterations_entered_cons, IH.
  destruct e; try done. by destruct (He iteration0).
Qed.

(** An iteration shows in the log as exactly one entry. *)
Lemma iterations_entered_iteration opt white_background scene
    save_iterations iteration evs :
  iteration_shape opt white_background scene save_iterations iteration evs →
  iterations_entered ((iteration,.) <$> evs) = [iteration].
Proof.
  intros (refilled & cam & debug & control & Hcontrol & ->).
  unfold iteration_head. rewrite <- !app_assoc.
  change ([update_learning_rate iteration] ++ ?l)
    with (update_learning_rate iteration :: l).
  rewrite fmap_cons, iterations_entered_cons.
  rewrite (iterations_entered_none iteration (_ ++ _)); [done|].
  rewrite !Forall_app, !Forall_cons. split_and!; try done.
  - by apply Forall_when.
  - by apply Forall_when.
  - by apply Forall_when.
  - apply population_control_events in Hcontrol.
    eapply Forall_impl; [done|]. intros e He it ->. done.
  - unfold optimizer_phase. case_match; by repeat constructor.
Qed.

Lemma events_of_app (l1 l2 : list (Z * event)) (iteration : Z) :
  events_of (l1 ++ l2) iteration
  = events_of l1 iteration ++ events_of l2 iteration.
Proof. unfold events_of. by rewrite filter_app, fmap_app. Qed.

Lemma events_of_same (iteration : Z) (evs : list event) :
  events_of ((iteration,.) <$> evs) iteration = evs.
Proof.
  unfold events_of. induction evs as [|e evs IH]; [done|].
  rewrite fmap_cons, filter_cons_True by done.
  rewrite fmap_cons. by f_equal.
Qed.

Lemma events_of_other (iteration it : Z) (evs : list event) :
  it ≠ iteration → events_of ((it,.) <$> evs) iteration = [].
Proof.
  intros Hne. unfold events_of. induction evs as [|e evs IH]; [done|].
  by rewrite fmap_cons, filter_cons_False.
Qed.

(** *** The loop as a chain of iterations *)

Section chain.
Context (opt : OptimizationParams) (white_background : bool)
        (scene : Scene) (save_iterations : list Z).

Abbreviation step :=
  (iteration_step opt white_background scene save_iterations).
Abbreviation shape :=
  (iteration_shape opt white_background scene save_iterations).

Lemma chained_entered its st st' :
  chained step its st st' →
  iterations_entered (log st') = iterations_entered (log st) ++ its.
Proof.
  revert st. induction its as [|it its IH]; intros st; simpl.
  - intros ->. by rewrite app_nil_r.
  - intros (mid & (evs & Hshape & Hlog) & Hrest).
    rewrite (IH _ Hrest), Hlog, iterations_entered_app.
    rewrite (iterations_entered_iteration _ _ _ _ _ _ Hshape).
    by rewrite <- app_assoc.
Qed.

Lemma chained_events_other its st st' iteration :
  iteration ∉ its →
  chained step its st st' →
  events_of (log st') iteration = events_of (log st) iteration.
Proof.
  revert st. induction its as [|it its IH]; intros st Hnotin; simpl.
  - by intros ->.
  - intros (mid & (evs & _ & Hlog) & Hrest).
    apply not_elem_of_cons in Hnotin as [Hne Hnotin].
    rewrite (IH _ Hnotin Hrest), Hlog, events_of_app.
    by rewrite events_of_other, app_nil_r.
Qed.

Lemma chained_events its st st' iteration :
  NoDup its → iteration ∈ its →
  chained step its st st' →
  ∃ evs, shape iteration evs
         ∧ events_of (log st') iteration
           = events_of (log st) iteration ++ evs.
Proof.
  revert st. induction its as [|it its IH]; intros st Hnodup Hin; simpl.
  - by apply elem_of_nil in Hin.
  - intros (mid & (evs & Hshape & Hlog) & Hrest).
    apply NoDup_cons in Hnodup as [Hfresh Hnodup].
    apply elem_of_cons in Hin as [->|Hin].
    + exists evs. split; [done|].
      rewrite (chained_events_other _ _ _ _ Hfresh Hrest).
      by rewrite Hlog, events_of_app, events_of_same.
    + destruct (IH mid Hnodup Hin Hrest) as (evs' & Hshape' & Hev).
      exists evs'. split; [done|].
      rewrite Hev, Hlog, events_of_app.
      rewrite events_of_other, app_nil_r; [done|].
      by intros ->.
Qed.
End chain.

Context `{!RandomSource}.

Lemma refilled_stack_nonempty (cams : list camera) vs :
  cams ≠ [] → refilled_stack cams vs ≠ [].
Proof.
  intros Hcams. unfold refilled_stack.
  by destruct vs as [[|c q]|].
Qed.

(** With cameras to choose from and intervals that are not zero, an
    iteration returns. *)
Lemma training_iteration_returns opt white_background scene save_iterations
    debug_from st iteration :
  train_cameras scene ≠ [] →
  opacity_reset_interval opt ≠ 0 →
  densification_interval opt ≠ 0 →
  ∃ st',
    training_iteration opt white_background scene save_iterations debug_from
                       st iteration = inr st'
    ∧ iteration_step opt white_background scene save_iterations iteration
                     st st'.
Proof.
  intros Hcams Hreset Hdens. unfold training_iteration.
  destruct (select_view_returns (train_cameras scene) (viewpoint_stack st)
              (gen st)) as (cam & stack & g' & -> & _).
  { by apply refilled_stack_nonempty. }
  destruct (population_control_returns opt white_background
              (cameras_extent scene) iteration) as (control & Hc & _);
    [done..|].
  rewrite result_bind_inr. cbv beta iota.
  rewrite Hc, result_bind_inr.
  eexists; split; [done|].
  eexists; split; [|done].
  by eexists _, _, _, _.
Qed.

Lemma training_loop_returns opt white_background scene save_iterations
    debug_from first_iter st :
  train_cameras scene ≠ [] →
  opacity_reset_interval opt ≠ 0 →
  densification_interval opt ≠ 0 →
  ∃ st',
    training_loop opt white_background scene save_iterations debug_from
                  first_iter st = inr st'
    ∧ chained (iteration_step opt white_background scene save_iterations)
              (range first_iter (iterations opt + 1)) st st'.
Proof.
  intros Hcams Hreset Hdens. apply for_each_chained.
  intros st1 it _. by apply training_iteration_returns.
Qed.
End loop.

Lemma head_seqZ (m n : Z) : 0 < n → head (seqZ m n) = Some m.
Proof. intros Hn. by rewrite seqZ_cons. Qed.

Lemma last_seqZ (m n : Z) : 0 < n → last (seqZ m n) = Some (m + n - 1).
Proof.
  intros Hn. rewrite last_lookup, length_seqZ, lookup_seqZ_lt by lia.
  f_equal. lia.
Qed.

Section training_run.
Context `{Collaborators} `{!RandomSource}.
Implicit Types (opt : OptimizationParams) (scene : Scene) (st : loop_state).

(** C1, as the code has it.  The loop returns, and for every iteration
    from the first one to [iterations] the population-control dispatch
    is the last thing before the optimiser: at every iteration strictly
    below [iterations] it is followed by the optimiser step and the
    clearing of the gradients, and by nothing else; at the iteration
    equal to [iterations] the dispatch still runs and nothing follows
    it. *)
Theorem optimizer_step_below_last_iteration opt white_background scene
    save_iterations debug_from first_iter st :
  train_cameras scene ≠ [] →
  opacity_reset_interval opt ≠ 0 →
  densification_interval opt ≠ 0 →
  ∃ st',
    training_loop opt white_background scene save_iterations debug_from
                  first_iter st = inr st'
    ∧ ∀ iteration,
        first_iter ≤ iteration ≤ iterations opt →
        ∃ before control,
          population_control opt white_background (cameras_extent scene)
                             iteration = inr control
          ∧ events_of (log st') iteration
            = events_of (log st) iteration ++ before ++ control
              ++ (if bool_decide (iteration < iterations opt)
                  then [optimizer_step; optimizer_zero_grad] else [])
          ∧ (optimizer_step ∉ before ++ control)
          ∧ (optimizer_zero_grad ∉ before ++ control).
Proof.
  intros Hcams Hreset Hdens.
  destruct (training_loop_returns opt white_background scene save_iterations
              debug_from first_iter st) as (st' & Hrun & Hchain); [done..|].
  exists st'. split; [done|]. intros iteration Hrange.
  assert (iteration ∈ range first_iter (iterations opt + 1)) as Hmem
    by (unfold range; apply elem_of_seqZ; lia).
  destruct (chained_events _ _ _ _ _ _ _ iteration
              (NoDup_seqZ _ _) Hmem Hchain)
    as (evs & (refilled & cam & debug & control & Hcontrol & ->) & Hevs).
  exists (iteration_head save_iterations iteration refilled cam debug), control.
  split; [done|]. split.
  { rewrite Hevs. unfold optimizer_phase.
    by destruct (Z.ltb_spec iteration (iterations opt));
      [rewrite bool_decide_eq_true_2|rewrite bool_decide_eq_false_2 by lia]. }
  apply population_control_events in Hcontrol.
  rewrite Forall_forall in Hcontrol.
  unfold iteration_head.
  rewrite !elem_of_app, !elem_of_when, !elem_of_cons, !elem_of_nil.
  pose proof (Hcontrol optimizer_step) as Hstep.
  pose proof (Hcontrol optimizer_zero_grad) as Hzero.
  simpl in Hstep, Hzero. clear -Hstep Hzero.
  intuition discriminate.
Qed.

Lemma training_entered opt white_background scene save_iterations
    debug_from k st :
  train_cameras scene ≠ [] →
  opacity_reset_interval opt ≠ 0 →
  densification_interval opt ≠ 0 →
  log st = [] →
  ∃ st',
    training_loop opt white_background scene save_iterations debug_from
                  (k + 1) st = inr st'
    ∧ iterations_entered (log st') = seqZ (k + 1) (iterations opt - k).
Proof.
  intros Hcams Hreset Hdens Hlog.
  destruct (training_loop_returns opt white_background scene save_iterations
              debug_from (k + 1) st) as (st' & Hrun & Hchain); [done..|].
  exists st'. split; [done|].
  rewrite (chained_entered _ _ _ _ _ _ _ Hchain), Hlog. simpl.
  unfold range. f_equal. lia.
Qed.

(** C2.  Started with a checkpoint (a path that is not empty) whose
    stored pair is the model parameters and the iteration [k], the run
    restores the model from the parameters, takes [k] as the stored
    iteration and enters the iterations [k + 1, k + 2, ..., iterations]
    in this order: when [k < iterations] the first one is [k + 1] and
    the last one [iterations].  Started without a checkpoint it enters
    [1, 2, ..., iterations]. *)
Theorem resume_from_checkpoint white_background scene opt pipe_debug0
    light outdoor save_iterations checkpoint debug_from g :
  train_cameras scene ≠ [] →
  opacity_reset_interval opt ≠ 0 →
  densification_interval opt ≠ 0 →
  let opt' := adapt opt light outdoor in
  let run := training white_background scene opt pipe_debug0 light outdoor
                      save_iterations checkpoint debug_from g in
  (∀ path model_params k,
     checkpoint = Some path → path ≠ ""%string →
     torch_load path = inr (model_params, k) →
     ∃ r, run = inr r
          ∧ convexes_at_start r
            = restore model_params opt' (scene_setup opt' light)
          ∧ first_iter r = k + 1
          ∧ iterations_entered (log (final r))
            = seqZ (k + 1) (iterations opt - k)
          ∧ (k < iterations opt →
             head (iterations_entered (log (final r))) = Some (k + 1)
             ∧ last (iterations_entered (log (final r)))
               = Some (iterations opt)))
  ∧ (checkpoint = None ∨ checkpoint = Some ""%string →
     ∃ r, run = inr r
          ∧ convexes_at_start r = scene_setup opt' light
          ∧ first_iter r = 1
          ∧ iterations_entered (log (final r)) = seqZ 1 (iterations opt)
          ∧ (1 ≤ iterations opt →
             head (iterations_entered (log (final r))) = Some 1
             ∧ last (iterations_entered (log (final r)))
               = Some (iterations opt))).
Proof.
  intros Hcams Hreset Hdens opt' run.
  assert (opacity_reset_interval opt' ≠ 0) as Hreset'
    by (unfold opt'; by rewrite adapt_opacity_reset_interval).
  assert (densification_interval opt' ≠ 0) as Hdens'
    by (unfold opt'; by rewrite adapt_densification_interval).
  assert (iterations opt' = iterations opt) as HN
    by apply adapt_iterations.
  split.
  - intros path model_params k -> Hpath Hload.
    destruct (training_entered opt' white_background scene save_iterations
                debug_from k
                {| viewpoint_stack := None; gen := g;
                   pipe_debug := pipe_debug0; log := [] |})
      as (st' & Hrun & Hentered); [done..|].
    rewrite HN in Hentered.
    unfold run, training, checkpoint_given.
    rewrite bool_decide_eq_false_2 by done.
    rewrite Hload, !result_bind_inr. cbv beta iota zeta.
    fold opt'. rewrite Hrun, result_bind_inr.
    eexists; split; [done|]. simpl.
    split_and!; [done..|].
    intros Hk. rewrite Hentered, head_seqZ, last_seqZ by lia.
    split; f_equal; lia.
  - intros Hnone.
    destruct (training_entered opt' white_background scene save_iterations
                debug_from 0
                {| viewpoint_stack := None; gen := g;
                   pipe_debug := pipe_debug0; log := [] |})
      as (st' & Hrun & Hentered); [done..|].
    rewrite HN, Z.sub_0_r in Hentered.
    assert (checkpoint_given checkpoint = None) as Hgiven
      by (by destruct Hnone as [->| ->]).
    unfold run, training. rewrite Hgiven, !result_bind_inr.
    cbv beta iota zeta. fold opt'. rewrite Hrun, result_bind_inr.
    eexists; split; [done|]. simpl.
    split_and!; [done..|].
    intros Hk. rewrite Hentered, head_seqZ, last_seqZ by lia.
    split; f_equal; lia.
Qed.
End training_run.

(** ** The reset deadline *)




(** ** The merge of a stored record with the command line *)

Lemma parse_args_known (parser : Parser) (supplied : gmap string atom) :
  dom supplied ⊆ dom parser →
  parse_args parser supplied = inr ((Some <$> supplied) ∪ parser).
Proof. intros Hdom. unfold parse_args. by rewrite bool_decide_eq_true_2. Qed.

Lemma parsed_lookup (parser : Parser) (supplied : gmap string atom) k :
  ((Some <$> supplied) ∪ parser) !! k
  = match supplied !! k with
    | Some a => Some (Some a)
    | None => parser !! k
    end.
Proof.
  rewrite lookup_union, lookup_fmap.
  destruct (supplied !! k); simpl; [|by rewrite (left_id_L None _)].
  by destruct (parser !! k).
Qed.

(** A key of the merged record holds the command-line value when that
    value is not [None], and the stored one otherwise. *)
Lemma merge_args_lookup (args_cfgfile args_cmdline : Namespace) k :
  merge_args args_cfgfile args_cmdline !! k
  = match args_cmdline !! k with
    | Some (Some a) => Some (Some a)
    | _ => args_cfgfile !! k
    end.
Proof.
  unfold merge_args. revert k.
  apply (map_fold_weak_ind
           (λ merged (m : Namespace), ∀ k,
              merged !! k = match m !! k with
                            | Some (Some a) => Some (Some a)
                            | _ => args_cfgfile !! k
                            end)).
  - intros k. by rewrite lookup_empty.
  - intros i v m merged Hfresh IH k.
    destruct (decide (i = k)) as [->|Hne].
    + rewrite lookup_insert_eq. destruct v as [a|].
      * by rewrite lookup_insert_eq.
      * by rewrite IH, Hfresh.
    + rewrite lookup_insert_ne by done. destruct v as [a|].
      * rewrite lookup_insert_ne by done. apply IH.
      * apply IH.
Qed.

Section get_combined_args.
Context (py_eval : string → result Namespace).

(** The record found: the function returns the merge. *)
Lemma get_combined_args_found parser supplied fs model_path cfgfilepath
    contents args_cfgfile :
  dom supplied ⊆ dom parser →
  ((Some <$> supplied) ∪ parser) !! "model_path"%string
  = Some (Some (PyStr model_path)) →
  os_path_join (Some (PyStr model_path)) "cfg_args" = inr cfgfilepath →
  fs cfgfilepath = Some contents →
  py_eval contents = inr args_cfgfile →
  get_combined_args py_eval parser supplied fs
  = inr (merge_args args_cfgfile ((Some <$> supplied) ∪ parser)).
Proof.
  intros Hdom Hpath Hjoin Hfile Heval. unfold get_combined_args.
  rewrite parse_args_known, result_bind_inr by done.
  unfold getattr. rewrite Hpath, result_bind_inr, Hjoin, result_bind_inr.
  unfold open_read. rewrite Hfile. unfold try_except.
  by rewrite result_bind_inr, Heval, result_bind_inr.
Qed.

(** The model path given and no record under it: opening the file
    raises, and [except TypeError] does not catch it. *)
Lemma get_combined_args_missing parser supplied fs model_path cfgfilepath :
  dom supplied ⊆ dom parser →
  ((Some <$> supplied) ∪ parser) !! "model_path"%string
  = Some (Some (PyStr model_path)) →
  os_path_join (Some (PyStr model_path)) "cfg_args" = inr cfgfilepath →
  fs cfgfilepath = None →
  get_combined_args py_eval parser supplied fs = inl FileNotFoundError.
Proof.
  intros Hdom Hpath Hjoin Hfile. unfold get_combined_args.
  rewrite parse_args_known, result_bind_inr by done.
  unfold getattr. rewrite Hpath, result_bind_inr, Hjoin, result_bind_inr.
  unfold open_read. by rewrite Hfile.
Qed.

(** No model path at all ([None], the default under [fill_none]): the
    join raises [TypeError], which is caught, and the empty record is
    merged with the command line. *)
Lemma get_combined_args_no_model_path parser supplied fs :
  dom supplied ⊆ dom parser →
  ((Some <$> supplied) ∪ parser) !! "model_path"%string = Some None →
  py_eval "Namespace()" = inr ∅ →
  get_combined_args py_eval parser supplied fs
  = inr (merge_args ∅ ((Some <$> supplied) ∪ parser)).
Proof.
  intros Hdom Hpath Heval. unfold get_combined_args.
  rewrite parse_args_known, result_bind_inr by done.
  unfold getattr. rewrite Hpath, result_bind_inr. simpl.
  by rewrite Heval, result_bind_inr.
Qed.

(** C7, as the code has it.  When the stored record is found and
    combined with the command line, every value supplied on the command
    line overrides the stored one; a key that was not supplied falls
    back to the stored record when the parser's default for it is [None]
    (or the parser does not know it), and takes the parser's default
    when that default is not [None]. *)
Theorem merge_supplied_then_default_then_stored parser supplied fs
    model_path cfgfilepath contents args_cfgfile :
  dom supplied ⊆ dom parser →
  ((Some <$> supplied) ∪ parser) !! "model_path"%string
  = Some (Some (PyStr model_path)) →
  os_path_join (Some (PyStr model_path)) "cfg_args" = inr cfgfilepath →
  fs cfgfilepath = Some contents →
  py_eval contents = inr args_cfgfile →
  ∃ merged,
    get_combined_args py_eval parser supplied fs = inr merged
    ∧ (∀ k a, supplied !! k = Some a → merged !! k = Some (Some a))
    ∧ (∀ k, supplied !! k = None →
            parser !! k = Some None ∨ parser !! k = None →
            merged !! k = args_cfgfile !! k)
    ∧ (∀ k a, supplied !! k = None → parser !! k = Some (Some a) →
              merged !! k = Some (Some a)).
Proof.
  intros Hdom Hpath Hjoin Hfile Heval.
  rewrite (get_combined_args_found _ _ _ _ _ _ _ Hdom Hpath Hjoin Hfile Heval).
  eexists; split; [done|]. split_and!.
  - intros k a Hk. by rewrite merge_args_lookup, parsed_lookup, Hk.
  - intros k Hk Hdefault.
    rewrite merge_args_lookup, parsed_lookup, Hk.
    by destruct Hdefault as [-> | ->].
  - intros k a Hk Hdefault.
    by rewrite merge_args_lookup, parsed_lookup, Hk, Hdefault.
Qed.
End get_combined_args.

(** * The definitions run on concrete inputs *)

(** The counter generator draws inside the range it is asked for. *)
Lemma fixture_random_source : @RandomSource Fixture.collaborators.
Proof.
  intros g a b Hab. simpl.
  pose proof (Z.mod_pos_bound g (b - a + 1)). lia.
Qed.

(** ** The last iteration *)

(** C1 fails as stated.  The default configuration resumed from the
    checkpoint of iteration 29998 runs the iterations 29999 and 30000; the
    calls of iteration 30000, the last one, end with the population
    control ([only_prune]): no optimiser step follows it, while iteration
    29999 ends with the step and the clearing of the gradients. *)
Lemma last_iteration_has_no_optimizer_step :
  ∃ r : @run Fixture.collaborators,
    training (H := Fixture.collaborators) true Fixture.scene
             OptimizationParams_init false false false [7000; 30000]
             (Some "chkpnt29998.pth"%string) (-1) 5 = inr r
    ∧ iterations (opt_used r) = 30000
    ∧ events_of (log (final r)) 29999
      = [update_learning_rate 29999; getTrainCameras_copy;
         pop_view (Fixture.view 2); render (Fixture.view 2) false;
         loss_backward; training_report 29999;
         optimizer_step; optimizer_zero_grad]
    ∧ events_of (log (final r)) 30000
      = [update_learning_rate 30000; oneupSHdegree;
         pop_view (Fixture.view 0); render (Fixture.view 0) false;
         loss_backward; training_report 30000;
         scene_save 30000; only_prune 0.03%Q 0.02%Q]
    ∧ (optimizer_step ∉ events_of (log (final r)) 30000).
Proof.
  eexists. split; [reflexivity|].
  split; [reflexivity|]. split; [reflexivity|].
  match goal with
  | |- ?calls = ?expected ∧ _ =>
      assert (calls = expected) as Hev by reflexivity
  end.
  split; [exact Hev|]. rewrite Hev.
  rewrite !elem_of_cons, elem_of_nil. intuition discriminate.
Qed.

(** ** The reset on a white background *)

(** C4 fails as stated.  In the default indoor run with a white
    background the extra reset happens at iteration 500, the value of
    [densify_from_iter], where densify-and-prune is not due and is not
    called; no iteration below 600 has it due; and at iteration 600, the
    first one at which it runs, no reset is made. *)
Lemma white_background_reset_precedes_densification :
  let opt := adapt OptimizationParams_init false false in
  population_control (H := Fixture.collaborators) opt true 4.5%Q 500
  = inr [max_radii2D_update; add_densification_stats; reset_opacity 0.2%Q]
  ∧ densification_due opt 500 = inr false
  ∧ (∀ iteration, iteration < 600 → densification_due opt iteration = inr false)
  ∧ densification_due opt 600 = inr true
  ∧ population_control (H := Fixture.collaborators) opt true 4.5%Q 600
    = inr [max_radii2D_update; add_densification_stats;
           densify_and_prune 0.03%Q 0.02%Q 4.5%Q None].
Proof.
  intros opt. split_and!; try reflexivity.
  intros iteration Hbelow. unfold densification_due, opt. simpl.
  destruct (Z.ltb_spec 500 iteration); [|done].
  f_equal. apply Z.eqb_neq.
  Z.to_euclidean_division_equations. lia.
Qed.

(** ** Records that are missing, defaults that are not [None] *)

(** C6: the code does not do what the claim says.  The command line names
    the model path of a run under which no record is stored: opening the
    file raises [FileNotFoundError], the handler is for [TypeError], and
    the call raises instead of falling back to the empty record. *)
Theorem missing_record_is_fatal :
  Fixture.fs "output/run2/cfg_args" = None
  ∧ get_combined_args Fixture.py_eval Fixture.parser Fixture.supplied_run2
                      Fixture.fs
    = inl FileNotFoundError.
Proof. split; [reflexivity|]. vm_compute. reflexivity. Qed.

(** C7 fails as stated.  The stored record has [debug=True]; the command
    line does not supply [debug]; the pipeline group registered it with the
    default [False], which is not [None]; the merged record has
    [debug=False], the parser's default, not the stored value. *)
Lemma unsupplied_key_takes_parser_default :
  Fixture.fs "output/run1/cfg_args" = Some "Namespace(debug=True)"%string
  ∧ Fixture.py_eval "Namespace(debug=True)" = inr Fixture.stored
  ∧ Fixture.supplied_run1 !! "debug"%string = None
  ∧ Fixture.stored !! "debug"%string = Some (Some (PyBool true))
  ∧ ∃ merged,
      get_combined_args Fixture.py_eval Fixture.parser Fixture.supplied_run1
                        Fixture.fs = inr merged
      ∧ merged !! "debug"%string = Some (Some (PyBool false))
      ∧ merged !! "debug"%string ≠ Fixture.stored !! "debug"%string.
Proof.
  split_and!; try reflexivity.
  eexists. split; [vm_compute; reflexivity|].
  split; [vm_compute; reflexivity|].
  vm_compute. discriminate.
Qed.

(** ** The statements at concrete inputs *)

Lemma post_growth_prune_and_reset_witness :
  densify_until_iter OptimizationParams_init ≤ 9000
  ∧ opacity_reset_interval OptimizationParams_init ≠ 0
  ∧ ∃ control,
      population_control (H := Fixture.collaborators) OptimizationParams_init
                         false 4.5%Q 9000 = inr control
      ∧ (only_prune 0.03%Q 0.01%Q ∈ control ↔ (1000 | 9000))
      ∧ NoDup control.
Proof.
  assert (densify_until_iter OptimizationParams_init ≤ 9000) as Hpast
    by (simpl; lia).
  assert (opacity_reset_interval OptimizationParams_init ≠ 0) as Hreset
    by (simpl; lia).
  split; [exact Hpast|]. split; [exact Hreset|].
  destruct (post_growth_prune_and_reset (H := Fixture.collaborators)
              OptimizationParams_init false 4.5%Q 9000 Hpast Hreset)
    as (control & Hrun & _ & _ & Hprune & _ & Hnodup).
  exists control. split; [exact Hrun|]. split; [exact Hprune|exact Hnodup].
Defined.

Lemma growth_phase_opacity_reset_witness :
  let opt := adapt OptimizationParams_init false false in
  500 < densify_until_iter opt
  ∧ opacity_reset_interval opt ≠ 0
  ∧ (densify_from_iter opt < 500 → densification_interval opt ≠ 0)
  ∧ ∃ control,
      population_control (H := Fixture.collaborators) opt true 4.5%Q 500
      = inr control
      ∧ (reset_opacity (opacity_reset opt) ∈ control
         ↔ (opacity_reset_interval opt | 500)
           ∨ (true = true ∧ 500 = densify_from_iter opt)).
Proof.
  intros opt.
  assert (500 < densify_until_iter opt) as Hgrowth by (simpl; lia).
  assert (opacity_reset_interval opt ≠ 0) as Hreset by (simpl; lia).
  assert (densify_from_iter opt < 500 → densification_interval opt ≠ 0)
    as Hdens by (simpl; lia).
  split; [exact Hgrowth|]. split; [exact Hreset|]. split; [exact Hdens|].
  destruct (growth_phase_opacity_reset (H := Fixture.collaborators)
              opt true 4.5%Q 500 Hgrowth Hreset Hdens)
    as (control & Hrun & _ & Hiff & _).
  exists control. split; [exact Hrun|exact Hiff].
Defined.

Lemma size_threshold_gate_witness :
  let opt := adapt OptimizationParams_init false false in
  3200 < densify_until_iter opt
  ∧ opacity_reset_interval opt ≠ 0
  ∧ densification_interval opt ≠ 0
  ∧ ∃ control,
      population_control (H := Fixture.collaborators) opt false 4.5%Q 3200
      = inr control
      ∧ ((∃ a b c d, densify_and_prune a b c d ∈ control)
         ↔ densify_from_iter opt < 3200 ∧ (densification_interval opt | 3200)).
Proof.
  intros opt.
  assert (3200 < densify_until_iter opt) as Hgrowth by (simpl; lia).
  assert (opacity_reset_interval opt ≠ 0) as Hreset by (simpl; lia).
  assert (densification_interval opt ≠ 0) as Hdens by (simpl; lia).
  split; [exact Hgrowth|]. split; [exact Hreset|]. split; [exact Hdens|].
  destruct (size_threshold_gate (H := Fixture.collaborators)
              opt false 4.5%Q 3200 Hgrowth Hreset Hdens)
    as (control & Hrun & Hiff & _).
  exists control. split; [exact Hrun|exact Hiff].
Defined.


Lemma optimizer_step_below_last_iteration_witness :
  let st := Fixture.start in
  train_cameras Fixture.scene ≠ []
  ∧ opacity_reset_interval OptimizationParams_init ≠ 0
  ∧ densification_interval OptimizationParams_init ≠ 0
  ∧ ∃ st',
      training_loop (H := Fixture.collaborators) OptimizationParams_init true
                    Fixture.scene [7000; 30000] (-1) 29999 st = inr st'.
Proof.
  intros st.
  assert (train_cameras Fixture.scene ≠ []) as Hcams by (simpl; discriminate).
  assert (opacity_reset_interval OptimizationParams_init ≠ 0) as Hreset
    by (simpl; lia).
  assert (densification_interval OptimizationParams_init ≠ 0) as Hdens
    by (simpl; lia).
  split; [exact Hcams|]. split; [exact Hreset|]. split; [exact Hdens|].
  destruct (optimizer_step_below_last_iteration
              (H := Fixture.collaborators) (H0 := fixture_random_source)
              OptimizationParams_init true Fixture.scene [7000; 30000] (-1)
              29999 st Hcams Hreset Hdens)
    as (st' & Hrun & _).
  exists st'. exact Hrun.
Defined.

Lemma resume_from_checkpoint_witness :
  train_cameras Fixture.scene ≠ []
  ∧ opacity_reset_interval OptimizationParams_init ≠ 0
  ∧ densification_interval OptimizationParams_init ≠ 0
  ∧ torch_load (Collaborators := Fixture.collaborators) "chkpnt29998.pth"
    = inr ("params@29998"%string, 29998)
  ∧ ∃ r,
      training (H := Fixture.collaborators) true Fixture.scene
               OptimizationParams_init false false false [7000; 30000]
               (Some "chkpnt29998.pth"%string) (-1) 5 = inr r
      ∧ first_iter r = 29998 + 1
      ∧ iterations_entered (log (final r))
        = seqZ (29998 + 1) (iterations OptimizationParams_init - 29998).
Proof.
  assert (train_cameras Fixture.scene ≠ []) as Hcams by (simpl; discriminate).
  assert (opacity_reset_interval OptimizationParams_init ≠ 0) as Hreset
    by (simpl; lia).
  assert (densification_interval OptimizationParams_init ≠ 0) as Hdens
    by (simpl; lia).
  assert (torch_load (Collaborators := Fixture.collaborators) "chkpnt29998.pth"
          = inr ("params@29998"%string, 29998)) as Hload by reflexivity.
  split; [exact Hcams|]. split; [exact Hreset|]. split; [exact Hdens|].
  split; [exact Hload|].
  destruct (resume_from_checkpoint
              (H := Fixture.collaborators) (H0 := fixture_random_source)
              true Fixture.scene OptimizationParams_init false false false
              [7000; 30000] (Some "chkpnt29998.pth"%string) (-1) 5
              Hcams Hreset Hdens)
    as [Hresumed _].
  destruct (Hresumed "chkpnt29998.pth"%string "params@29998"%string 29998
              eq_refl ltac:(discriminate) Hload)
    as (r & Hrun & _ & Hfirst & Hentered & _).
  exists r. split; [exact Hrun|]. split; [exact Hfirst|exact Hentered].
Defined.


Lemma merge_supplied_then_default_then_stored_witness :
  dom Fixture.supplied_run1 ⊆ dom Fixture.parser
  ∧ ((Some <$> Fixture.supplied_run1) ∪ Fixture.parser) !! "model_path"%string
    = Some (Some (PyStr "output/run1"))
  ∧ os_path_join (Some (PyStr "output/run1")) "cfg_args"
    = inr "output/run1/cfg_args"%string
  ∧ Fixture.fs "output/run1/cfg_args" = Some "Namespace(debug=True)"%string
  ∧ Fixture.py_eval "Namespace(debug=True)" = inr Fixture.stored
  ∧ ∃ merged,
      get_combined_args Fixture.py_eval Fixture.parser Fixture.supplied_run1
                        Fixture.fs = inr merged
      ∧ (∀ k a, Fixture.supplied_run1 !! k = Some a →
                merged !! k = Some (Some a)).
Proof.
  assert (dom Fixture.supplied_run1 ⊆ dom Fixture.parser) as Hdom
    by (apply (bool_decide_unpack
                 (dom Fixture.supplied_run1 ⊆ dom Fixture.parser));
        vm_compute; exact I).
  assert (((Some <$> Fixture.supplied_run1) ∪ Fixture.parser)
            !! "model_path"%string = Some (Some (PyStr "output/run1")))
    as Hpath by (vm_compute; reflexivity).
  assert (os_path_join (Some (PyStr "output/run1")) "cfg_args"
          = inr "output/run1/cfg_args"%string) as Hjoin by reflexivity.
  assert (Fixture.fs "output/run1/cfg_args"
          = Some "Namespace(debug=True)"%string) as Hfile by reflexivity.
  assert (Fixture.py_eval "Namespace(debug=True)" = inr Fixture.stored)
    as Heval by reflexivity.
  split; [exact Hdom|]. split; [exact Hpath|]. split; [exact Hjoin|].
  split; [exact Hfile|]. split; [exact Heval|].
  destruct (merge_supplied_then_default_then_stored Fixture.py_eval
              Fixture.parser Fixture.supplied_run1 Fixture.fs
              "output/run1" "output/run1/cfg_args" "Namespace(debug=True)"
              Fixture.stored Hdom Hpath Hjoin Hfile Heval)
    as (merged & Hrun & Hsupplied & _).
  exists merged. split; [exact Hrun|exact Hsupplied].
Defined.

(** * Further properties of the code *)

(** ** Parameter groups *)




Lemma extract_lookup (vars_self : list (string * atom)) (args : Namespace) k :
  extract vars_self args !! k
  = if bool_decide (k ∈ vars_self.*1 ∨ ("_" +:+ k)%string ∈ vars_self.*1)
    then args !! k else None.
Proof.
  unfold extract. revert k.
  apply (map_fold_weak_ind
           (λ group (m : Namespace), ∀ k,
              group !! k
              = if bool_decide (k ∈ vars_self.*1
                                ∨ ("_" +:+ k)%string ∈ vars_self.*1)
                then m !! k else None)).
  - intros k. rewrite !lookup_empty. by case_bool_decide.
  - intros i v m group Hfresh IH k.
    destruct (decide (i = k)) as [->|Hne].
    + rewrite lookup_insert_eq. case_bool_decide.
      * by rewrite lookup_insert_eq.
      * rewrite IH. by rewrite bool_decide_eq_false_2.
    + rewrite (lookup_insert_ne m) by done.
      destruct (bool_decide (i ∈ vars_self.*1 ∨ _)).
      * rewrite lookup_insert_ne by done. apply IH.
      * apply IH.
Qed.



(** X3.  [ModelParams.extract] needs a source path that is a string: it
    returns the extracted group with the source path made absolute and
    every other attribute as extracted; on a source path that is [None]
    (a parser built with the sentinel and no path given) or not a string
    it raises [TypeError], and without the attribute, [AttributeError]. *)
Theorem ModelParams_extract_source_path (abspath : string → string)
    (args : Namespace) :
  match args !! "source_path"%string with
  | Some (Some (PyStr path)) =>
      ∃ g, ModelParams_extract abspath args = inr g
           ∧ g !! "source_path"%string = Some (Some (PyStr (abspath path)))
           ∧ ∀ k, k ≠ "source_path"%string →
                  g !! k = extract ModelParams_vars args !! k
  | Some _ => ModelParams_extract abspath args = inl TypeError
  | None => ModelParams_extract abspath args = inl AttributeError
  end.
Proof.
  unfold ModelParams_extract, getattr.
  assert (extract ModelParams_vars args !! "source_path"%string
          = args !! "source_path"%string) as ->
    by (rewrite extract_lookup; by rewrite bool_decide_eq_true_2 by
          (right; vm_compute; set_solver)).
  destruct (args !! "source_path"%string) as [[[]|]|]; try done.
  rewrite result_bind_inr.
  eexists; split; [done|]. split; [by rewrite lookup_insert_eq|].
  intros k Hk. by rewrite lookup_insert_ne.
Qed.

(** ** The merge *)

(** X4.  The merge never loses a stored key, holds exactly the stored
    keys and the command-line keys whose value is not [None], never gives a
    key the value [None] unless the stored record does, and merging the
    same command line a second time changes nothing. *)
Theorem merge_args_keeps_stored (args_cfgfile args_cmdline : Namespace) :
  (∀ k, is_Some (args_cfgfile !! k) →
        is_Some (merge_args args_cfgfile args_cmdline !! k))
  ∧ (∀ k, is_Some (merge_args args_cfgfile args_cmdline !! k)
          ↔ is_Some (args_cfgfile !! k)
            ∨ ∃ a, args_cmdline !! k = Some (Some a))
  ∧ (∀ k, merge_args args_cfgfile args_cmdline !! k = Some None →
          args_cfgfile !! k = Some None)
  ∧ merge_args (merge_args args_cfgfile args_cmdline) args_cmdline
    = merge_args args_cfgfile args_cmdline.
Proof.
  split_and!.
  - intros k Hk. rewrite merge_args_lookup.
    by destruct (args_cmdline !! k) as [[]|].
  - intros k. rewrite merge_args_lookup.
    destruct (args_cmdline !! k) as [[a|]|]; split; try by left.
    + intros _. right. by exists a.
    + done.
    + intros [?|[a [=]]]; done.
    + intros [?|[a [=]]]; done.
  - intros k. rewrite merge_args_lookup.
    by destruct (args_cmdline !! k) as [[]|].
  - apply map_eq. intros k. rewrite !merge_args_lookup.
    by destruct (args_cmdline !! k) as [[]|].
Qed.

Section get_combined_args_edges.
Context (py_eval : string → result Namespace).

(** X5.  When the parsed model path is [None] or any value that is not a
    string, joining it raises [TypeError], which the handler catches: the
    function returns the empty record merged with the command line, which
    holds the command-line keys whose value is not [None] and nothing
    else. *)
Theorem get_combined_args_without_model_path parser supplied fs model_path :
  dom supplied ⊆ dom parser →
  ((Some <$> supplied) ∪ parser) !! "model_path"%string = Some model_path →
  (∀ path, model_path ≠ Some (PyStr path)) →
  py_eval "Namespace()" = inr ∅ →
  ∃ merged,
    get_combined_args py_eval parser supplied fs = inr merged
    ∧ ∀ k, merged !! k
           = match ((Some <$> supplied) ∪ parser) !! k with
             | Some (Some a) => Some (Some a)
             | _ => None
             end.
Proof.
  intros Hdom Hpath Hnostr Heval. unfold get_combined_args.
  rewrite parse_args_known, result_bind_inr by done.
  unfold getattr. rewrite Hpath, result_bind_inr.
  assert (os_path_join model_path "cfg_args" = inl TypeError) as ->.
  { destruct model_path as [[]|]; try done. by destruct (Hnostr s). }
  simpl. rewrite Heval, result_bind_inr.
  eexists; split; [done|]. intros k.
  rewrite merge_args_lookup, lookup_empty.
  by destruct (_ !! k) as [[]|].
Qed.

(** X6.  On a parser that has no [model_path] destination the function
    raises [AttributeError]: reading the attribute happens inside the
    [try], but the handler is for [TypeError] only. *)
Theorem get_combined_args_no_destination parser supplied fs :
  dom supplied ⊆ dom parser →
  parser !! "model_path"%string = None →
  get_combined_args py_eval parser supplied fs = inl AttributeError.
Proof.
  intros Hdom Hnone. unfold get_combined_args.
  rewrite parse_args_known, result_bind_inr by done.
  unfold getattr. rewrite parsed_lookup, Hnone.
  assert (supplied !! "model_path"%string = None) as ->; [|done].
  apply not_elem_of_dom. intros Hin%Hdom.
  by apply not_elem_of_dom in Hnone.
Qed.
End get_combined_args_edges.

(** ** The record written at start-up *)

Lemma os_path_join_string (a b : string) :
  ∃ path, os_path_join (Some (PyStr a)) b = inr path.
Proof. unfold os_path_join. repeat case_bool_decide; eauto. Qed.

Lemma output_path_nonempty (b : string) : output_path b ≠ ""%string.
Proof.
  unfold output_path. destruct b as [|c b]; [done|].
  destruct c as [[] [] [] [] [] [] [] []]; done.
Qed.

Section prepare_output_and_logger.
Context (py_str : Namespace → string) (OAR_JOB_ID : option string)
        (uuid4 : string).

(** What [prepare_output_and_logger] returns when it does. *)
Lemma prepare_output_and_logger_returned args fs args' fs' :
  prepare_output_and_logger py_str OAR_JOB_ID uuid4 args fs = inr (args', fs') →
  ∃ model_path cfg_log,
    model_path ≠ ""%string
    ∧ args' !! "model_path"%string = Some (Some (PyStr model_path))
    ∧ (truthy (default None (args !! "model_path"%string)) = true →
       args' = args)
    ∧ (∀ k, k ≠ "model_path"%string → args' !! k = args !! k)
    ∧ os_path_join (Some (PyStr model_path)) "cfg_args" = inr cfg_log
    ∧ fs' cfg_log = Some (py_str args')
    ∧ ∀ path, path ≠ cfg_log → fs' path = fs path.
Proof.
  unfold prepare_output_and_logger, getattr.
  destruct (args !! "model_path"%string) as [model_path|] eqn:Hpath; [|done].
  rewrite result_bind_inr. cbv zeta. simpl default.
  destruct (truthy model_path) eqn:Htruthy.
  - rewrite Hpath, result_bind_inr.
    destruct model_path as [[b|z|q|path]|]; try done.
    destruct (os_path_join_string path "cfg_args") as [cfg_log Hjoin].
    rewrite Hjoin, result_bind_inr. intros [= <- <-].
    exists path, cfg_log. split_and!; try done.
    + intros ->. by vm_compute in Htruthy.
    + by rewrite bool_decide_eq_true_2.
    + intros p Hp. by rewrite bool_decide_eq_false_2.
  - rewrite lookup_insert_eq, result_bind_inr.
    set (path := output_path _).
    destruct (os_path_join_string path "cfg_args") as [cfg_log Hjoin].
    rewrite Hjoin, result_bind_inr. intros [= <- <-].
    exists path, cfg_log. split_and!; try done.
    + apply output_path_nonempty.
    + by rewrite lookup_insert_eq.
    + intros k Hk. by rewrite lookup_insert_ne.
    + by rewrite bool_decide_eq_true_2.
    + intros p Hp. by rewrite bool_decide_eq_false_2.
Qed.


(** X8.  The record that [prepare_output_and_logger] writes is the one
    [get_combined_args] finds: called with a command line whose model path
    is the one of the run, it returns the written arguments merged with
    that command line, provided [eval] reads back what [str] wrote. *)
Theorem record_written_is_record_found (py_eval : string → result Namespace)
    args fs args' fs' parser supplied :
  prepare_output_and_logger py_str OAR_JOB_ID uuid4 args fs = inr (args', fs') →
  py_eval (py_str args') = inr args' →
  dom supplied ⊆ dom parser →
  ((Some <$> supplied) ∪ parser) !! "model_path"%string
  = args' !! "model_path"%string →
  get_combined_args py_eval parser supplied fs'
  = inr (merge_args args' ((Some <$> supplied) ∪ parser)).
Proof.
  intros Hrun Heval Hdom Hsame.
  destruct (prepare_output_and_logger_returned _ _ _ _ Hrun)
    as (path & cfg_log & _ & Hnew & _ & _ & Hjoin & Hfile & _).
  rewrite Hnew in Hsame.
  by apply (get_combined_args_found py_eval parser supplied fs' path cfg_log
              (py_str args') args').
Qed.
End prepare_output_and_logger.

(** ** The adaptation, once more *)

(** X9.  Adapting an adapted configuration with the same flags changes
    nothing: [adapt] assigns constants, under conditions on the flags
    alone. *)
Theorem adapt_idempotent (opt : OptimizationParams) (light outdoor : bool) :
  adapt (adapt opt light outdoor) light outdoor = adapt opt light outdoor.
Proof. by destruct light, outdoor. Qed.

Section dispatch_edges.
Context `{Collaborators}.
Implicit Types (opt : OptimizationParams) (iteration : Z).

(** X10.  Under the light flag or the outdoor flag the adaptation leaves
    the population control of every iteration as it was: only the indoor
    branch touches what the dispatch reads ([densify_until_iter] and
    [mask_threshold]). *)
Theorem adapt_outdoor_keeps_dispatch opt light outdoor white_background
    extent iteration :
  light = true ∨ outdoor = true →
  population_control (adapt opt light outdoor) white_background extent
                     iteration
  = population_control opt white_background extent iteration.
Proof. intros [-> | ->]; [done|by destruct light]. Qed.

(** X11.  If the reset deadline is not beyond the growth phase
    ([reset_opacity_until ≤ densify_until_iter]), no opacity reset is ever
    made past the growth phase: the dispatch there is [only_prune] at the
    multiples of 1000 and nothing at all otherwise.  The default
    configuration is in this case under every combination of the flags. *)
Theorem no_reset_past_growth opt white_background extent iteration :
  reset_opacity_until opt ≤ densify_until_iter opt →
  densify_until_iter opt ≤ iteration →
  opacity_reset_interval opt ≠ 0 →
  population_control opt white_background extent iteration
  = inr (if iteration `mod` 1000 =? 0
         then [only_prune (min_opacity opt) (mask_threshold opt)] else [])
  ∧ ∀ light outdoor,
      reset_opacity_until (adapt OptimizationParams_init light outdoor)
      ≤ densify_until_iter (adapt OptimizationParams_init light outdoor).
Proof.
  intros Hdeadline Hpast Hreset. split.
  - rewrite population_control_post_growth by done.
    destruct (Z.ltb_spec iteration (reset_opacity_until opt)); [lia|].
    by rewrite andb_false_r, app_nil_r.
  - intros [] []; simpl; lia.
Qed.

(** X12.  A zero [opacity_reset_interval] makes the dispatch of every
    iteration raise [ZeroDivisionError]; a zero [densification_interval]
    (with a reset interval that is not zero) makes it raise exactly at the
    iterations of the growth phase above [densify_from_iter], and return
    everywhere else. *)
Theorem zero_interval_raises opt white_background extent iteration :
  (opacity_reset_interval opt = 0 →
   population_control opt white_background extent iteration
   = inl ZeroDivisionError)
  ∧ (opacity_reset_interval opt ≠ 0 → densification_interval opt = 0 →
     if bool_decide (densify_from_iter opt < iteration
                                         < densify_until_iter opt)
     then population_control opt white_background extent iteration
          = inl ZeroDivisionError
     else ∃ control,
            population_control opt white_background extent iteration
            = inr control).
Proof.
  split.
  - intros Hzero. unfold population_control, densification_due, mod_.
    rewrite Hzero. simpl.
    destruct (iteration <? densify_until_iter opt); [|done].
    destruct (densify_from_iter opt <? iteration); [|done].
    by destruct (densification_interval opt =? 0).
  - intros Hreset Hzero. case_bool_decide as Hin.
    + unfold population_control, densification_due, mod_.
      destruct (Z.ltb_spec iteration (densify_until_iter opt)); [|lia].
      destruct (Z.ltb_spec (densify_from_iter opt) iteration); [|lia].
      by rewrite Hzero.
    + destruct (Z.lt_ge_cases iteration (densify_until_iter opt)).
      * rewrite population_control_growth by (done || lia). eauto.
      * rewrite population_control_post_growth by done. eauto.
Qed.
End dispatch_edges.

(** ** The loop, iteration by iteration *)

Lemma chained_impl {S} (R R' : Z → S → S → Prop) (its : list Z) (st st' : S) :
  (∀ it s s', R it s s' → R' it s s') →
  chained R its st st' → chained R' its st st'.
Proof.
  intros Himpl. revert st. induction its as [|it its IH]; intros st; [done|].
  intros (mid & Hstep & Hrest). exists mid. auto.
Qed.

Section loop_calls.
Context `{Collaborators}.
Implicit Types (opt : OptimizationParams) (scene : Scene) (st : loop_state).

Lemma stack_truthy_left (vs : option (list camera)) :
  stack_truthy vs = negb (Z.of_nat (stack_left vs) =? 0).
Proof. by destruct vs as [[]|]. Qed.

Lemma iteration_effect_step opt white_background scene save_iterations
    debug_from iteration st st' :
  iteration_effect opt white_background scene save_iterations debug_from
                   iteration st st' →
  iteration_step opt white_background scene save_iterations iteration st st'.
Proof.
  intros (cam & stack & g' & control & _ & Hcontrol & _ & _ & Hlog).
  eexists; split; [|done]. by eexists _, _, _, _.
Qed.

(** An iteration takes one view off the stack, refilled first if empty. *)
Lemma iteration_effect_left opt white_background scene save_iterations
    debug_from iteration st st' :
  let n := length (train_cameras scene) in
  (stack_left (viewpoint_stack st) < n)%nat →
  iteration_effect opt white_background scene save_iterations debug_from
                   iteration st st' →
  Z.of_nat (stack_left (viewpoint_stack st'))
  = (Z.of_nat (stack_left (viewpoint_stack st)) - 1) `mod` Z.of_nat n
  ∧ (stack_left (viewpoint_stack st') < n)%nat.
Proof.
  intros n Hleft (cam & stack & g' & control & Hsel & _ & Hstack & _).
  apply select_view_returned in Hsel as (_ & _ & Hperm).
  apply Permutation_length in Hperm. rewrite Hstack.
  unfold refilled_stack, stack_left in *. subst n.
  destruct (viewpoint_stack st) as [[|c q]|]; simpl in *.
  - split; [|lia].
    apply (Z.mod_unique_pos (0 - 1) _ (-1)); lia.
  - split; [|lia]. rewrite Z.mod_small; lia.
  - split; [|lia].
    apply (Z.mod_unique_pos (0 - 1) _ (-1)); lia.
Qed.

Section calls.
Context (opt : OptimizationParams) (white_background : bool) (scene : Scene)
        (save_iterations : list Z) (debug_from : Z).

Abbreviation effect :=
  (iteration_effect opt white_background scene save_iterations debug_from).
Abbreviation cameras := (length (train_cameras scene)).

(** The calls of every iteration of a run of the loop, read off the state
    the run started in. *)
Lemma chained_effect_calls (len : nat) : ∀ first_iter st st',
  (stack_left (viewpoint_stack st) < cameras)%nat →
  chained effect (seqZ first_iter (Z.of_nat len)) st st' →
  ∀ iteration,
    first_iter ≤ iteration < first_iter + Z.of_nat len →
    ∃ cam control,
      population_control opt white_background (cameras_extent scene) iteration
      = inr control
      ∧ events_of (log st') iteration
        = events_of (log st) iteration
          ++ iteration_calls opt save_iterations debug_from cameras first_iter
               (stack_left (viewpoint_stack st)) (pipe_debug st)
               iteration cam control.
Proof.
  induction len as [|len IH]; intros first_iter st st' Hleft Hchain it Hit;
    [lia|].
  rewrite seqZ_cons in Hchain by lia.
  replace (Z.pred (Z.of_nat (S len))) with (Z.of_nat len) in Hchain by lia.
  destruct Hchain as (mid & Heffect & Hrest).
  destruct (iteration_effect_left _ _ _ _ _ _ _ _ Hleft Heffect)
    as [Hmid Hmidlt].
  pose proof Heffect as (cam & stack & g' & control & _ & Hcontrol & _
                         & Hdebug & Hlog).
  destruct (decide (it = first_iter)) as [->|Hne].
  - exists cam, control. split; [done|].
    rewrite (chained_events_other opt white_background scene save_iterations
               (seqZ (Z.succ first_iter) (Z.of_nat len)) mid st' first_iter).
    2: { rewrite elem_of_seqZ. lia. }
    2: { eapply chained_impl; [|done]. apply iteration_effect_step. }
    rewrite Hlog, events_of_app, events_of_same. f_equal.
    unfold iteration_calls. do 2 f_equal.
    + rewrite stack_truthy_left, negb_involutive, Z.sub_diag, Z.sub_0_r.
      by rewrite Z.mod_small by lia.
    + rewrite Hdebug.
      destruct (Z.eqb_spec (first_iter - 1) debug_from).
      * rewrite bool_decide_eq_true_2 by lia. by rewrite orb_true_r.
      * rewrite bool_decide_eq_false_2 by lia. by rewrite orb_false_r.
  - destruct (IH (Z.succ first_iter) mid st' Hmidlt Hrest it ltac:(lia))
      as (cam' & control' & Hcontrol' & Hev).
    exists cam', control'. split; [done|].
    rewrite Hev, Hlog, events_of_app, events_of_other, app_nil_r by done.
    f_equal. unfold iteration_calls. do 2 f_equal.
    + f_equal. rewrite Hmid, Zminus_mod_idemp_l. f_equal. lia.
    + rewrite Hdebug.
      destruct (Z.eqb_spec (first_iter - 1) debug_from).
      * simpl. rewrite bool_decide_eq_true_2 by lia. by rewrite orb_true_r.
      * destruct (pipe_debug st); [done|]. simpl.
        apply bool_decide_ext. lia.
Qed.
End calls.

Context `{!RandomSource}.

Lemma training_iteration_effect opt white_background scene save_iterations
    debug_from st iteration :
  train_cameras scene ≠ [] →
  opacity_reset_interval opt ≠ 0 →
  densification_interval opt ≠ 0 →
  ∃ st',
    training_iteration opt white_background scene save_iterations debug_from
                       st iteration = inr st'
    ∧ iteration_effect opt white_background scene save_iterations debug_from
                       iteration st st'.
Proof.
  intros Hcams Hreset Hdens. unfold training_iteration.
  destruct (select_view_returns (train_cameras scene) (viewpoint_stack st)
              (gen st)) as (cam & stack & g' & Hsel & _).
  { by apply refilled_stack_nonempty. }
  destruct (population_control_returns opt white_background
              (cameras_extent scene) iteration) as (control & Hc & _);
    [done..|].
  rewrite Hsel, result_bind_inr. cbv beta iota.
  rewrite Hc, result_bind_inr.
  eexists; split; [done|].
  by exists cam, stack, g', control.
Qed.

(** The loop returns, and the calls of each of its iterations are known
    from the state it started in. *)
Lemma training_loop_calls opt white_background scene save_iterations
    debug_from first_iter st :
  train_cameras scene ≠ [] →
  opacity_reset_interval opt ≠ 0 →
  densification_interval opt ≠ 0 →
  (stack_left (viewpoint_stack st) < length (train_cameras scene))%nat →
  ∃ st',
    training_loop opt white_background scene save_iterations debug_from
                  first_iter st = inr st'
    ∧ ∀ iteration,
        first_iter ≤ iteration ≤ iterations opt →
        ∃ cam control,
          population_control opt white_background (cameras_extent scene)
                             iteration = inr control
          ∧ events_of (log st') iteration
            = events_of (log st) iteration
              ++ iteration_calls opt save_iterations debug_from
                   (length (train_cameras scene)) first_iter
                   (stack_left (viewpoint_stack st)) (pipe_debug st)
                   iteration cam control.
Proof.
  intros Hcams Hreset Hdens Hleft.
  destruct (for_each_chained
              (training_iteration opt white_background scene save_iterations
                                  debug_from)
              (iteration_effect opt white_background scene save_iterations
                                debug_from)
              (range first_iter (iterations opt + 1)) st)
    as (st' & Hrun & Hchain).
  { intros st1 it _. by apply training_iteration_effect. }
  exists st'. split; [done|]. intros it Hit.
  unfold range in Hchain.
  replace (iterations opt + 1 - first_iter)
    with (Z.of_nat (Z.to_nat (iterations opt + 1 - first_iter)))
    in Hchain by lia.
  apply (chained_effect_calls opt white_background scene save_iterations
           debug_from _ first_iter st st' Hleft Hchain). lia.
Qed.
End loop_calls.

(** ** Whole runs *)

Section runs.
Context `{Collaborators}.
Implicit Types (opt : OptimizationParams) (scene : Scene) (st : loop_state).

(** [training] is its loop, entered after the stored iteration. *)
Lemma training_from white_background scene opt pipe_debug0 light outdoor
    save_iterations checkpoint debug_from g k :
  stored_iteration checkpoint = inr k →
  ∃ convexes,
    training white_background scene opt pipe_debug0 light outdoor
             save_iterations checkpoint debug_from g
    = (st ← training_loop (adapt opt light outdoor) white_background scene
                          save_iterations debug_from (k + 1)
                          {| viewpoint_stack := None; gen := g;
                             pipe_debug := pipe_debug0; log := [] |};
       inr {| opt_used := adapt opt light outdoor;
              convexes_at_start := convexes;
              first_iter := k + 1; final := st |}).
Proof.
  unfold stored_iteration, training.
  destruct (checkpoint_given checkpoint) as [path|].
  - destruct (torch_load path) as [e|[model_params first]]; [done|].
    rewrite !result_bind_inr. intros [= ->]. by eexists.
  - intros [= <-]. by eexists.
Qed.

(** The calls an iteration of the loop makes before the population
    control. *)
Lemma elem_of_iteration_head save_iterations iteration refilled
    (cam : camera) debug e :
  e ∈ iteration_head save_iterations iteration refilled cam debug
  ↔ e = update_learning_rate iteration
    ∨ ((iteration `mod` 1000 =? 0) = true ∧ e = oneupSHdegree)
    ∨ (refilled = true ∧ e = getTrainCameras_copy)
    ∨ e = pop_view cam
    ∨ e = render cam debug
    ∨ e = loss_backward
    ∨ e = training_report iteration
    ∨ (iteration ∈ save_iterations ∧ e = scene_save iteration).
Proof.
  unfold iteration_head.
  rewrite !elem_of_app, !elem_of_when, !elem_of_cons, !elem_of_nil.
  rewrite bool_decide_eq_true. tauto.
Qed.

(** A call that is neither of the population control nor of the
    optimiser is in the calls of an iteration only through their head. *)
Lemma elem_of_iteration_calls opt white_background scene save_iterations
    debug_from cameras first_iter left debug0 iteration cam control e :
  population_control opt white_background (cameras_extent scene) iteration
  = inr control →
  ¬ population_event e → e ≠ optimizer_step → e ≠ optimizer_zero_grad →
  e ∈ iteration_calls opt save_iterations debug_from cameras first_iter left
                      debug0 iteration cam control
  ↔ e ∈ iteration_head save_iterations iteration
          ((Z.of_nat left - (iteration - first_iter)) `mod` Z.of_nat cameras
           =? 0)
          cam
          (debug0 || bool_decide (first_iter ≤ debug_from + 1 ≤ iteration)).
Proof.
  intros Hcontrol Hpop Hstep Hzero. unfold iteration_calls.
  apply population_control_events in Hcontrol.
  rewrite Forall_forall in Hcontrol.
  rewrite !elem_of_app. unfold optimizer_phase.
  split; [|by left]. intros [|[Hin|Hin]]; [done| |].
  - by apply Hcontrol in Hin.
  - destruct (iteration <? iterations opt).
    + rewrite !elem_of_cons, elem_of_nil in Hin. by destruct Hin as [|[|]].
    + by apply elem_of_nil in Hin.
Qed.

Context `{!RandomSource}.

(** A run returns, and the calls of each of its iterations are known. *)
Lemma training_calls white_background scene opt pipe_debug0 light outdoor
    save_iterations checkpoint debug_from g k :
  train_cameras scene ≠ [] →
  opacity_reset_interval opt ≠ 0 →
  densification_interval opt ≠ 0 →
  stored_iteration checkpoint = inr k →
  ∃ r,
    training white_background scene opt pipe_debug0 light outdoor
             save_iterations checkpoint debug_from g = inr r
    ∧ first_iter r = k + 1
    ∧ opt_used r = adapt opt light outdoor
    ∧ ∀ iteration,
        k < iteration ≤ iterations opt →
        ∃ cam control,
          population_control (adapt opt light outdoor) white_background
                             (cameras_extent scene) iteration = inr control
          ∧ events_of (log (final r)) iteration
            = iteration_calls (adapt opt light outdoor) save_iterations
                debug_from (length (train_cameras scene)) (k + 1) 0
                pipe_debug0 iteration cam control.
Proof.
  intros Hcams Hreset Hdens Hstored.
  destruct (training_from white_background scene opt pipe_debug0 light outdoor
              save_iterations checkpoint debug_from g k Hstored)
    as [convexes ->].
  destruct (training_loop_calls (adapt opt light outdoor) white_background
              scene save_iterations debug_from (k + 1)
              {| viewpoint_stack := None; gen := g;
                 pipe_debug := pipe_debug0; log := [] |})
    as (st' & -> & Hcalls).
  - done.
  - by rewrite adapt_opacity_reset_interval.
  - by rewrite adapt_densification_interval.
  - unfold stack_left. simpl.
    destruct (train_cameras scene); [done|]. simpl. lia.
  - rewrite result_bind_inr. eexists. split; [done|].
    split; [done|]. split; [done|]. intros it Hit. simpl.
    rewrite adapt_iterations in Hcalls.
    destruct (Hcalls it ltac:(lia)) as (cam & control & Hcontrol & Hev).
    by exists cam, control.
Qed.
End runs.

Section run_properties.
Context `{Collaborators} `{!RandomSource}.
Implicit Types (opt : OptimizationParams) (scene : Scene).

(** X13.  A run refills its view stack at its first iteration and then
    exactly every [n] iterations, [n] being the number of training views:
    the iteration [it] takes a fresh copy of the training views if and only
    if [n] divides the number of iterations made before it. *)
Theorem views_refilled_every_cycle white_background scene opt pipe_debug0
    light outdoor save_iterations checkpoint debug_from g k :
  train_cameras scene ≠ [] →
  opacity_reset_interval opt ≠ 0 →
  densification_interval opt ≠ 0 →
  stored_iteration checkpoint = inr k →
  ∃ r,
    training white_background scene opt pipe_debug0 light outdoor
             save_iterations checkpoint debug_from g = inr r
    ∧ ∀ iteration,
        k < iteration ≤ iterations opt →
        (getTrainCameras_copy ∈ events_of (log (final r)) iteration
         ↔ (Z.of_nat (length (train_cameras scene)) | iteration - (k + 1))).
Proof.
  intros Hcams Hreset Hdens Hstored.
  destruct (training_calls white_background scene opt pipe_debug0 light
              outdoor save_iterations checkpoint debug_from g k)
    as (r & Hrun & _ & _ & Hcalls); [done..|].
  exists r. split; [done|]. intros it Hit.
  destruct (Hcalls it Hit) as (cam & control & Hcontrol & ->).
  rewrite (elem_of_iteration_calls _ _ _ _ _ _ _ _ _ _ _ _ _ Hcontrol)
    by (done || tauto).
  rewrite elem_of_iteration_head.
  assert (Z.of_nat (length (train_cameras scene)) ≠ 0) as Hn
    by (destruct (train_cameras scene); simpl; [done|lia]).
  rewrite (mod_eqb_divide _ _ Hn).
  replace (Z.of_nat 0 - (it - (k + 1))) with (- (it - (k + 1))) by lia.
  rewrite Z.divide_opp_r.
  split; [|tauto].
  intros [|[[_ ?]|[[? _]|[|[|[|[|[_ ?]]]]]]]]; done.
Qed.


(** X15.  In a run the colour-basis degree is raised exactly at the
    iterations divisible by 1000, the scene is saved exactly at the
    iterations listed in [save_iterations], and the report and the
    learning-rate update of every iteration carry its own number. *)
Theorem degree_and_save_cadence white_background scene opt pipe_debug0
    light outdoor save_iterations checkpoint debug_from g k :
  train_cameras scene ≠ [] →
  opacity_reset_interval opt ≠ 0 →
  densification_interval opt ≠ 0 →
  stored_iteration checkpoint = inr k →
  ∃ r,
    training white_background scene opt pipe_debug0 light outdoor
             save_iterations checkpoint debug_from g = inr r
    ∧ ∀ iteration,
        k < iteration ≤ iterations opt →
        (oneupSHdegree ∈ events_of (log (final r)) iteration
         ↔ (1000 | iteration))
        ∧ (∀ j, scene_save j ∈ events_of (log (final r)) iteration
                ↔ j = iteration ∧ iteration ∈ save_iterations)
        ∧ (∀ j, training_report j ∈ events_of (log (final r)) iteration
                ↔ j = iteration)
        ∧ (∀ j, update_learning_rate j ∈ events_of (log (final r)) iteration
                ↔ j = iteration).
Proof.
  intros Hcams Hreset Hdens Hstored.
  destruct (training_calls white_background scene opt pipe_debug0 light
              outdoor save_iterations checkpoint debug_from g k)
    as (r & Hrun & _ & _ & Hcalls); [done..|].
  exists r. split; [done|]. intros it Hit.
  destruct (Hcalls it Hit) as (cam & control & Hcontrol & ->).
  split_and!; try intros j;
    rewrite (elem_of_iteration_calls _ _ _ _ _ _ _ _ _ _ _ _ _ Hcontrol)
      by (done || tauto);
    rewrite elem_of_iteration_head.
  - rewrite (mod_eqb_divide it 1000) by lia.
    split; [|tauto].
    intros [|[[? _]|[[_ ?]|[|[|[|[|[_ ?]]]]]]]]; done.
  - split; [|intros [-> ?]; tauto].
    intros [|[[_ ?]|[[_ ?]|[|[|[|[|[? [= ->]]]]]]]]]; done.
  - split; [|intros ->; tauto].
    intros [|[[_ ?]|[[_ ?]|[|[|[|[[= ->]|[_ ?]]]]]]]]; done.
  - split; [|intros ->; tauto].
    intros [[= ->]|[[_ ?]|[[_ ?]|[|[|[|[|[_ ?]]]]]]]]; done.
Qed.

(** X16.  Started from the [__main__] block, a run that makes at least one
    iteration saves the scene at its last iteration, whatever
    [--save_iterations] lists: the block appends the total number of
    iterations to that list. *)
Theorem main_saves_last_iteration white_background scene opt pipe_debug0
    light outdoor save_iterations checkpoint debug_from g k :
  train_cameras scene ≠ [] →
  opacity_reset_interval opt ≠ 0 →
  densification_interval opt ≠ 0 →
  stored_iteration checkpoint = inr k →
  k < iterations opt →
  ∃ r,
    main white_background scene opt pipe_debug0 light outdoor
         save_iterations checkpoint debug_from g = inr r
    ∧ scene_save (iterations opt)
      ∈ events_of (log (final r)) (iterations opt).
Proof.
  intros Hcams Hreset Hdens Hstored Hk. unfold main.
  destruct (training_calls white_background scene opt pipe_debug0 light
              outdoor (save_iterations ++ [iterations opt]) checkpoint
              debug_from g k)
    as (r & Hrun & _ & _ & Hcalls); [done..|].
  exists r. split; [done|].
  destruct (Hcalls (iterations opt) ltac:(lia))
    as (cam & control & Hcontrol & ->).
  rewrite (elem_of_iteration_calls _ _ _ _ _ _ _ _ _ _ _ _ _ Hcontrol)
    by (done || tauto).
  rewrite elem_of_iteration_head. do 7 right.
  split; [|done]. rewrite elem_of_app, list_elem_of_singleton. by right.
Qed.
End run_properties.

Section run_edges.
Context `{Collaborators}.
Implicit Types (opt : OptimizationParams) (scene : Scene).

(** X17.  Resuming a run whose checkpoint was written at or after the
    last iteration does nothing: the loop is not entered, nothing is
    logged, nothing is saved, and no training view is needed. *)
Theorem finished_run_does_nothing white_background scene opt pipe_debug0
    light outdoor save_iterations checkpoint debug_from g k :
  stored_iteration checkpoint = inr k →
  iterations opt ≤ k →
  ∃ r,
    main white_background scene opt pipe_debug0 light outdoor
         save_iterations checkpoint debug_from g = inr r
    ∧ first_iter r = k + 1
    ∧ log (final r) = []
    ∧ viewpoint_stack (final r) = None.
Proof.
  intros Hstored Hk. unfold main.
  destruct (training_from white_background scene opt pipe_debug0 light outdoor
              (save_iterations ++ [iterations opt]) checkpoint debug_from g k
              Hstored) as [convexes ->].
  unfold training_loop, range.
  rewrite seqZ_nil by (rewrite adapt_iterations; lia).
  simpl. by eexists.
Qed.

(** X18.  Without training views a run that has an iteration to make
    raises [ValueError] at its first view selection. *)
Theorem no_training_view_raises white_background scene opt pipe_debug0
    light outdoor save_iterations checkpoint debug_from g k :
  train_cameras scene = [] →
  stored_iteration checkpoint = inr k →
  k < iterations opt →
  training white_background scene opt pipe_debug0 light outdoor
           save_iterations checkpoint debug_from g
  = inl ValueError.
Proof.
  intros Hcams Hstored Hk.
  destruct (training_from white_background scene opt pipe_debug0 light outdoor
              save_iterations checkpoint debug_from g k Hstored)
    as [convexes ->].
  unfold training_loop, range.
  rewrite seqZ_cons by (rewrite adapt_iterations; lia).
  simpl for_each. unfold training_iteration. simpl viewpoint_stack.
  by rewrite select_view_empty by (by rewrite refilled_stack_falsy).
Qed.

(** ** The views a report evaluates *)

Lemma validation_train_cameras_nonempty (cams : list camera) :
  cams ≠ [] →
  ∃ views,
    validation_train_cameras cams = inr views
    ∧ length views = 5%nat
    ∧ ∀ j : nat,
        (j < 5)%nat →
        views !! j
        = cams !! Z.to_nat ((5 * (Z.of_nat j + 1))
                            `mod` Z.of_nat (length cams)).
Proof.
  intros Hcams.
  assert (0 < Z.of_nat (length cams)) as Hn
    by (destruct cams; simpl; [done|lia]).
  assert (∀ idx, ∃ v,
            (i ← mod_ idx (Z.of_nat (length cams)); list_getitem cams i)
            = inr v
            ∧ cams !! Z.to_nat (idx `mod` Z.of_nat (length cams)) = Some v)
    as Hget.
  { intros idx. rewrite mod__nonzero, result_bind_inr by lia.
    pose proof (Z.mod_pos_bound idx _ Hn) as Hbound.
    unfold list_getitem.
    destruct (Z.ltb_spec (idx `mod` Z.of_nat (length cams)) 0); [lia|].
    destruct (Z.leb_spec 0 (idx `mod` Z.of_nat (length cams))); [|lia].
    destruct (Z.ltb_spec (idx `mod` Z.of_nat (length cams))
                (Z.of_nat (length cams))); [|lia].
    simpl.
    destruct (lookup_lt_is_Some_2 cams
                (Z.to_nat (idx `mod` Z.of_nat (length cams)))) as [v Hv];
      [lia|].
    exists v. by rewrite Hv. }
  unfold validation_train_cameras.
  change (range_step 5 30 5) with [5; 10; 15; 20; 25].
  destruct (Hget 5) as (v1 & H1 & L1), (Hget 10) as (v2 & H2 & L2),
    (Hget 15) as (v3 & H3 & L3), (Hget 20) as (v4 & H4 & L4),
    (Hget 25) as (v5 & H5 & L5).
  exists [v1; v2; v3; v4; v5]. split.
  { simpl comprehension.
    rewrite H1, result_bind_inr, H2, result_bind_inr, H3, result_bind_inr,
      H4, result_bind_inr, H5, !result_bind_inr. done. }
  split; [done|].
  intros [|[|[|[|[|j]]]]] Hj; simpl; try lia; by symmetry.
Qed.

(** X19.  Outside the testing iterations a report evaluates no view.  At
    a testing iteration it evaluates the test views, unless there are
    none, and five training views, those at the positions 5, 10, 15, 20
    and 25 taken modulo the number of training views; with no training
    view at all it raises [ZeroDivisionError]. *)
Theorem training_report_views (testing_iterations : list Z) (iteration : Z)
    (test_cameras cams : list camera) :
  if bool_decide (iteration ∈ testing_iterations) then
    match cams with
    | [] =>
        training_report_configs testing_iterations iteration test_cameras cams
        = inl ZeroDivisionError
    | _ =>
        ∃ views,
          training_report_configs testing_iterations iteration test_cameras
                                  cams
          = inr ((if bool_decide (test_cameras = []) then []
                  else [("test"%string, test_cameras)])
                 ++ [("train"%string, views)])
          ∧ length views = 5%nat
          ∧ ∀ j : nat,
              (j < 5)%nat →
              views !! j
              = cams !! Z.to_nat ((5 * (Z.of_nat j + 1))
                                  `mod` Z.of_nat (length cams))
    end
  else
    training_report_configs testing_iterations iteration test_cameras cams
    = inr [].
Proof.
  unfold training_report_configs. case_bool_decide; [|done].
  destruct cams as [|c cams]; [done|].
  destruct (validation_train_cameras_nonempty (c :: cams))
    as (views & -> & Hlen & Hviews); [done|].
  exists views. rewrite result_bind_inr. split; [|done].
  f_equal. rewrite !filter_cons, filter_nil. simpl.
  assert (views ≠ []) by (by destruct views).
  destruct (decide (test_cameras ≠ [])), (decide (views ≠ [])); try done.
  - by rewrite bool_decide_eq_false_2.
  - rewrite bool_decide_eq_true_2; [done|].
    by destruct test_cameras; [|exfalso; auto].
Qed.
End run_edges.

(** ** The further properties at concrete inputs *)



Lemma get_combined_args_without_model_path_witness :
  dom (∅ : gmap string atom) ⊆ dom Fixture.parser
  ∧ ((Some <$> (∅ : gmap string atom)) ∪ Fixture.parser)
      !! "model_path"%string = Some None
  ∧ Fixture.py_eval "Namespace()" = inr ∅
  ∧ ∃ merged,
      get_combined_args Fixture.py_eval Fixture.parser ∅ Fixture.fs
      = inr merged
      ∧ ∀ k, merged !! k
             = match ((Some <$> (∅ : gmap string atom)) ∪ Fixture.parser) !! k
               with
               | Some (Some a) => Some (Some a)
               | _ => None
               end.
Proof.
  assert (dom (∅ : gmap string atom) ⊆ dom Fixture.parser) as Hdom
    by (rewrite dom_empty_L; apply empty_subseteq).
  assert (((Some <$> (∅ : gmap string atom)) ∪ Fixture.parser)
            !! "model_path"%string = Some None) as Hpath
    by (vm_compute; reflexivity).
  assert (Fixture.py_eval "Namespace()" = inr ∅) as Heval by reflexivity.
  split; [exact Hdom|]. split; [exact Hpath|]. split; [exact Heval|].
  exact (get_combined_args_without_model_path Fixture.py_eval Fixture.parser
           ∅ Fixture.fs None Hdom Hpath ltac:(discriminate) Heval).
Defined.

Lemma get_combined_args_no_destination_witness :
  dom (∅ : gmap string atom) ⊆ dom (PipelineParams ∅)
  ∧ PipelineParams ∅ !! "model_path"%string = None
  ∧ get_combined_args Fixture.py_eval (PipelineParams ∅) ∅ Fixture.fs
    = inl AttributeError.
Proof.
  assert (dom (∅ : gmap string atom) ⊆ dom (PipelineParams ∅)) as Hdom
    by (rewrite dom_empty_L; apply empty_subseteq).
  assert (PipelineParams ∅ !! "model_path"%string = None) as Hnone
    by (vm_compute; reflexivity).
  split; [exact Hdom|]. split; [exact Hnone|].
  exact (get_combined_args_no_destination Fixture.py_eval (PipelineParams ∅)
           ∅ Fixture.fs Hdom Hnone).
Defined.

Lemma record_written_is_record_found_witness :
  let fs' := λ path,
    if bool_decide (path = "output/run3/cfg_args"%string)
    then Some (Fixture.str_run3 Fixture.args_run3) else Fixture.fs path in
  prepare_output_and_logger Fixture.str_run3 None "0f8fad5b-d9cb"
                            Fixture.args_run3 Fixture.fs
  = inr (Fixture.args_run3, fs')
  ∧ Fixture.eval_run3 (Fixture.str_run3 Fixture.args_run3)
    = inr Fixture.args_run3
  ∧ dom Fixture.supplied_run3 ⊆ dom Fixture.parser
  ∧ get_combined_args Fixture.eval_run3 Fixture.parser Fixture.supplied_run3
                      fs'
    = inr (merge_args Fixture.args_run3
                      ((Some <$> Fixture.supplied_run3) ∪ Fixture.parser)).
Proof.
  intros fs'.
  assert (prepare_output_and_logger Fixture.str_run3 None "0f8fad5b-d9cb"
            Fixture.args_run3 Fixture.fs = inr (Fixture.args_run3, fs'))
    as Hrun by reflexivity.
  assert (Fixture.eval_run3 (Fixture.str_run3 Fixture.args_run3)
          = inr Fixture.args_run3) as Heval by reflexivity.
  assert (dom Fixture.supplied_run3 ⊆ dom Fixture.parser) as Hdom
    by (apply (bool_decide_unpack
                 (dom Fixture.supplied_run3 ⊆ dom Fixture.parser));
        vm_compute; exact I).
  assert (((Some <$> Fixture.supplied_run3) ∪ Fixture.parser)
            !! "model_path"%string
          = Fixture.args_run3 !! "model_path"%string) as Hsame
    by (vm_compute; reflexivity).
  split; [exact Hrun|]. split; [exact Heval|]. split; [exact Hdom|].
  exact (record_written_is_record_found Fixture.str_run3 None "0f8fad5b-d9cb"
           Fixture.eval_run3 Fixture.args_run3 Fixture.fs Fixture.args_run3
           fs' Fixture.parser Fixture.supplied_run3 Hrun Heval Hdom Hsame).
Defined.

Lemma adapt_outdoor_keeps_dispatch_witness :
  (false = true ∨ true = true)
  ∧ population_control (H := Fixture.collaborators)
      (adapt OptimizationParams_init false true) true 4.5%Q 600
    = population_control OptimizationParams_init true 4.5%Q 600.
Proof.
  assert (false = true ∨ true = true) as Hflag by (right; reflexivity).
  split; [exact Hflag|].
  exact (adapt_outdoor_keeps_dispatch (H := Fixture.collaborators)
           OptimizationParams_init false true true 4.5%Q 600 Hflag).
Defined.

Lemma no_reset_past_growth_witness :
  reset_opacity_until OptimizationParams_init
  ≤ densify_until_iter OptimizationParams_init
  ∧ densify_until_iter OptimizationParams_init ≤ 12000
  ∧ opacity_reset_interval OptimizationParams_init ≠ 0
  ∧ population_control (H := Fixture.collaborators) OptimizationParams_init
                       false 4.5%Q 12000
    = inr (if 12000 `mod` 1000 =? 0
           then [only_prune (min_opacity OptimizationParams_init)
                            (mask_threshold OptimizationParams_init)]
           else []).
Proof.
  assert (reset_opacity_until OptimizationParams_init
          ≤ densify_until_iter OptimizationParams_init) as Hdeadline
    by (simpl; lia).
  assert (densify_until_iter OptimizationParams_init ≤ 12000) as Hpast
    by (simpl; lia).
  assert (opacity_reset_interval OptimizationParams_init ≠ 0) as Hreset
    by (simpl; lia).
  split; [exact Hdeadline|]. split; [exact Hpast|]. split; [exact Hreset|].
  exact (proj1 (no_reset_past_growth (H := Fixture.collaborators)
                  OptimizationParams_init false 4.5%Q 12000
                  Hdeadline Hpast Hreset)).
Defined.

Lemma views_refilled_every_cycle_witness :
  train_cameras Fixture.scene ≠ []
  ∧ opacity_reset_interval OptimizationParams_init ≠ 0
  ∧ densification_interval OptimizationParams_init ≠ 0
  ∧ stored_iteration (H := Fixture.collaborators)
      (Some "chkpnt29998.pth"%string) = inr 29998
  ∧ ∃ r,
      training (H := Fixture.collaborators) true Fixture.scene
               OptimizationParams_init false false false [7000; 30000]
               (Some "chkpnt29998.pth"%string) (-1) 5 = inr r
      ∧ ∀ iteration,
          29998 < iteration ≤ iterations OptimizationParams_init →
          (getTrainCameras_copy ∈ events_of (log (final r)) iteration
           ↔ (Z.of_nat (length (train_cameras Fixture.scene))
              | iteration - (29998 + 1))).
Proof.
  assert (train_cameras Fixture.scene ≠ []) as Hcams by (simpl; discriminate).
  assert (opacity_reset_interval OptimizationParams_init ≠ 0) as Hreset
    by (simpl; lia).
  assert (densification_interval OptimizationParams_init ≠ 0) as Hdens
    by (simpl; lia).
  assert (stored_iteration (H := Fixture.collaborators)
            (Some "chkpnt29998.pth"%string) = inr 29998) as Hstored
    by reflexivity.
  split; [exact Hcams|]. split; [exact Hreset|]. split; [exact Hdens|].
  split; [exact Hstored|].
  exact (views_refilled_every_cycle
           (H := Fixture.collaborators) (H0 := fixture_random_source)
           true Fixture.scene OptimizationParams_init false false false
           [7000; 30000] (Some "chkpnt29998.pth"%string) (-1) 5 29998
           Hcams Hreset Hdens Hstored).
Defined.


Lemma degree_and_save_cadence_witness :
  train_cameras Fixture.scene ≠ []
  ∧ opacity_reset_interval OptimizationParams_init ≠ 0
  ∧ densification_interval OptimizationParams_init ≠ 0
  ∧ stored_iteration (H := Fixture.collaborators) None = inr 0
  ∧ ∃ r,
      training (H := Fixture.collaborators) true Fixture.scene
               OptimizationParams_init false false false [7000; 30000]
               None (-1) 5 = inr r
      ∧ ∀ iteration,
          0 < iteration ≤ iterations OptimizationParams_init →
          (oneupSHdegree ∈ events_of (log (final r)) iteration
           ↔ (1000 | iteration)).
Proof.
  assert (train_cameras Fixture.scene ≠ []) as Hcams by (simpl; discriminate).
  assert (opacity_reset_interval OptimizationParams_init ≠ 0) as Hreset
    by (simpl; lia).
  assert (densification_interval OptimizationParams_init ≠ 0) as Hdens
    by (simpl; lia).
  assert (stored_iteration (H := Fixture.collaborators) None = inr 0)
    as Hstored by reflexivity.
  split; [exact Hcams|]. split; [exact Hreset|]. split; [exact Hdens|].
  split; [exact Hstored|].
  destruct (degree_and_save_cadence
              (H := Fixture.collaborators) (H0 := fixture_random_source)
              true Fixture.scene OptimizationParams_init false false false
              [7000; 30000] None (-1) 5 0 Hcams Hreset Hdens Hstored)
    as (r & Hrun & Hcadence).
  exists r. split; [exact Hrun|].
  intros iteration Hit. exact (proj1 (Hcadence iteration Hit)).
Defined.

Lemma main_saves_last_iteration_witness :
  train_cameras Fixture.scene ≠ []
  ∧ opacity_reset_interval OptimizationParams_init ≠ 0
  ∧ densification_interval OptimizationParams_init ≠ 0
  ∧ stored_iteration (H := Fixture.collaborators) None = inr 0
  ∧ 0 < iterations OptimizationParams_init
  ∧ ∃ r,
      main (H := Fixture.collaborators) true Fixture.scene
           OptimizationParams_init false false false [] None (-1) 5 = inr r
      ∧ scene_save (iterations OptimizationParams_init)
        ∈ events_of (log (final r)) (iterations OptimizationParams_init).
Proof.
  assert (train_cameras Fixture.scene ≠ []) as Hcams by (simpl; discriminate).
  assert (opacity_reset_interval OptimizationParams_init ≠ 0) as Hreset
    by (simpl; lia).
  assert (densification_interval OptimizationParams_init ≠ 0) as Hdens
    by (simpl; lia).
  assert (stored_iteration (H := Fixture.collaborators) None = inr 0)
    as Hstored by reflexivity.
  assert (0 < iterations OptimizationParams_init) as Hk by (simpl; lia).
  split; [exact Hcams|]. split; [exact Hreset|]. split; [exact Hdens|].
  split; [exact Hstored|]. split; [exact Hk|].
  exact (main_saves_last_iteration
           (H := Fixture.collaborators) (H0 := fixture_random_source)
           true Fixture.scene OptimizationParams_init false false false
           [] None (-1) 5 0 Hcams Hreset Hdens Hstored Hk).
Defined.

Lemma finished_run_does_nothing_witness :
  stored_iteration (H := Fixture.finished) (Some "chkpnt30000.pth"%string)
  = inr 30000
  ∧ iterations OptimizationParams_init ≤ 30000
  ∧ ∃ r,
      main (H := Fixture.finished)
           true {| train_cameras := []; cameras_extent := 4.5%Q |}
           OptimizationParams_init false false false [7000]
           (Some "chkpnt30000.pth"%string) (-1) (5 : Z) = inr r
      ∧ first_iter r = 30000 + 1
      ∧ log (final r) = []
      ∧ viewpoint_stack (final r) = None.
Proof.
  assert (stored_iteration (H := Fixture.finished)
            (Some "chkpnt30000.pth"%string) = inr 30000) as Hstored
    by reflexivity.
  assert (iterations OptimizationParams_init ≤ 30000) as Hk by (simpl; lia).
  split; [exact Hstored|]. split; [exact Hk|].
  exact (finished_run_does_nothing (H := Fixture.finished)
           true {| train_cameras := []; cameras_extent := 4.5%Q |}
           OptimizationParams_init false false false [7000]
           (Some "chkpnt30000.pth"%string) (-1) (5 : Z) 30000 Hstored Hk).
Defined.

Lemma no_training_view_raises_witness :
  train_cameras Fixture.empty_scene = []
  ∧ stored_iteration (H := Fixture.collaborators) None = inr 0
  ∧ 0 < iterations OptimizationParams_init
  ∧ training (H := Fixture.collaborators) true Fixture.empty_scene
             OptimizationParams_init false false false [7000; 30000]
             None (-1) 5
    = inl ValueError.
Proof.
  assert (train_cameras Fixture.empty_scene = []) as Hcams by reflexivity.
  assert (stored_iteration (H := Fixture.collaborators) None = inr 0)
    as Hstored by reflexivity.
  assert (0 < iterations OptimizationParams_init) as Hk by (simpl; lia).
  split; [exact Hcams|]. split; [exact Hstored|]. split; [exact Hk|].
  exact (no_training_view_raises (H := Fixture.collaborators)
           true Fixture.empty_scene OptimizationParams_init false false false
           [7000; 30000] None (-1) 5 0 Hcams Hstored Hk).
Defined.
